(** * Build request of the dx CLI (packages/cli/src/build/request.rs)

    Shallow embedding of the build orchestration core: the string helpers the
    event parser relies on (over UTF-8 bytes), [shell_words::split], the
    stream-drain loop of [cargo_build], command assembly with its
    environment variables, the one-time build-directory preparation, the
    layout resolver and output file names, the entry points [cargo_build]
    and [build_server], and [build_all], which drives the app and server
    builds as futures, joined by [try_join] or awaited in turn. *)

From Stdlib Require Import Bool List Ascii String Lia Sorted.
Import ListNotations.
Open Scope string_scope.

(** ** Rust string helpers over [String.string] *)

Module RStr.

(** A [String.string] holds the UTF-8 bytes of a Rust [str]. A character
    is a byte that is not a continuation byte (0x80 to 0xBF) followed by
    the continuation bytes after it ([str::is_char_boundary]). *)
Definition is_continuation (b : ascii) : bool :=
  let n := nat_of_ascii b in Nat.leb 128 n && Nat.leb n 191.

(** The bytes of a string grouped into its characters. *)
Fixpoint chars (l : list ascii) : list (list ascii) :=
  match l with
  | [] => []
  | b :: r =>
      match chars r with
      | (c :: ch) :: cs =>
          if is_continuation c then (b :: c :: ch) :: cs else [b] :: (c :: ch) :: cs
      | cs => [b] :: cs
      end
  end.

(** [char::is_whitespace] (the Unicode White_Space property) on the UTF-8
    encoding of a character: U+0009 to U+000D, U+0020, U+0085, U+00A0,
    U+1680, U+2000 to U+200A, U+2028, U+2029, U+202F, U+205F, U+3000. *)
Definition is_whitespace (c : list ascii) : bool :=
  match map nat_of_ascii c with
  | [n] => (Nat.leb 9 n && Nat.leb n 13) || Nat.eqb n 32
  | [a; b] => Nat.eqb a 194 && (Nat.eqb b 133 || Nat.eqb b 160)
  | [a; b; d] =>
      (Nat.eqb a 225 && Nat.eqb b 154 && Nat.eqb d 128) ||
      (Nat.eqb a 226 && Nat.eqb b 128 &&
         ((Nat.leb 128 d && Nat.leb d 138) || Nat.eqb d 168 || Nat.eqb d 169 ||
          Nat.eqb d 175)) ||
      (Nat.eqb a 226 && Nat.eqb b 129 && Nat.eqb d 159) ||
      (Nat.eqb a 227 && Nat.eqb b 128 && Nat.eqb d 128)
  | _ => false
  end.

Fixpoint drop_while {A} (f : A -> bool) (l : list A) : list A :=
  match l with
  | [] => []
  | c :: r => if f c then drop_while f r else l
  end.

(** [str::trim_start] *)
Definition trim_start (s : string) : string :=
  string_of_list_ascii (List.concat (drop_while is_whitespace (chars (list_ascii_of_string s)))).

(** [str::trim_end] *)
Definition trim_end (s : string) : string :=
  string_of_list_ascii
    (List.concat (rev (drop_while is_whitespace (rev (chars (list_ascii_of_string s)))))).

(** [str::trim] *)
Definition trim (s : string) : string := trim_end (trim_start s).

(** [str::starts_with] *)
Definition starts_with (s pat : string) : bool := String.prefix pat s.

(** [str::trim_start_matches] with a string pattern: strips the pattern
    repeatedly from the front (an empty pattern strips nothing). *)
Fixpoint trim_start_matches_fuel (fuel : nat) (pat s : string) : string :=
  match fuel with
  | O => s
  | S f =>
      if String.eqb pat "" then s
      else if String.prefix pat s
           then trim_start_matches_fuel f pat
                  (substring (String.length pat) (String.length s) s)
           else s
  end.

Definition trim_start_matches (pat s : string) : string :=
  trim_start_matches_fuel (S (String.length s)) pat s.

Fixpoint drop_while_char (c : ascii) (l : list ascii) : list ascii :=
  match l with
  | [] => []
  | d :: r => if Ascii.eqb c d then drop_while_char c r else l
  end.

(** [str::contains] with a [char] pattern. *)
Definition contains_char (c : ascii) (s : string) : bool :=
  existsb (Ascii.eqb c) (list_ascii_of_string s).

(** [str::trim_end_matches] with a [char] pattern. *)
Definition trim_end_matches (c : ascii) (s : string) : string :=
  string_of_list_ascii (rev (drop_while_char c (rev (list_ascii_of_string s)))).

(** [str::repeat] *)
Fixpoint str_repeat (k : nat) (s : string) : string :=
  match k with
  | O => ""
  | S k => s ++ str_repeat k s
  end.

(** [str::ends_with] with a [char] pattern. *)
Definition ends_with_char (c : ascii) (s : string) : bool :=
  match rev (list_ascii_of_string s) with
  | d :: _ => Ascii.eqb c d
  | [] => false
  end.

(** U+00A0 (no-break space) and U+3000 (ideographic space), in UTF-8. *)
Definition nbsp : string := String (ascii_of_nat 194) (String (ascii_of_nat 160) "").
Definition ideographic_space : string :=
  String (ascii_of_nat 227) (String (ascii_of_nat 128) (String (ascii_of_nat 128) "")).

End RStr.

(** ** [shell_words::split] (shell-words 1.1)

    The parser state machine of the crate, one character at a time; the
    current word is kept reversed. *)

Module ShellWords.

Inductive state :=
  | Delimiter
  | Backslash
  | Unquoted
  | UnquotedBackslash
  | SingleQuoted
  | DoubleQuoted
  | DoubleQuotedBackslash
  | Comment.

Inductive ParseError := ParseErr.

Definition ch (n : nat) : ascii := ascii_of_nat n.
Definition c_tab := ch 9.
Definition c_nl := ch 10.
Definition c_space := ch 32.
Definition c_dquote := ch 34.
Definition c_hash := ch 35.
Definition c_dollar := ch 36.
Definition c_squote := ch 39.
Definition c_backslash := ch 92.
Definition c_backtick := ch 96.

Definition is_delim (c : ascii) : bool :=
  Ascii.eqb c c_tab || Ascii.eqb c c_space || Ascii.eqb c c_nl.

Definition word_of (w : list ascii) : string := string_of_list_ascii (rev w).

(** [go st word words s]: [word] is the current word (reversed), [words]
    the finished words (reversed). *)
Fixpoint go (st : state) (word : list ascii) (words : list string)
  (s : string) : option (list string) :=
  match st, s with
  | Delimiter, EmptyString => Some (rev words)
  | Delimiter, String c r =>
      if Ascii.eqb c c_squote then go SingleQuoted word words r
      else if Ascii.eqb c c_dquote then go DoubleQuoted word words r
      else if Ascii.eqb c c_backslash then go Backslash word words r
      else if is_delim c then go Delimiter word words r
      else if Ascii.eqb c c_hash then go Comment word words r
      else go Unquoted (c :: word) words r
  | Backslash, EmptyString =>
      Some (rev (word_of (c_backslash :: word) :: words))
  | Backslash, String c r =>
      if Ascii.eqb c c_nl then go Delimiter word words r
      else go Unquoted (c :: word) words r
  | Unquoted, EmptyString => Some (rev (word_of word :: words))
  | Unquoted, String c r =>
      if Ascii.eqb c c_squote then go SingleQuoted word words r
      else if Ascii.eqb c c_dquote then go DoubleQuoted word words r
      else if Ascii.eqb c c_backslash then go UnquotedBackslash word words r
      else if is_delim c then go Delimiter [] (word_of word :: words) r
      else go Unquoted (c :: word) words r
  | UnquotedBackslash, EmptyString =>
      Some (rev (word_of (c_backslash :: word) :: words))
  | UnquotedBackslash, String c r =>
      if Ascii.eqb c c_nl then go Unquoted word words r
      else go Unquoted (c :: word) words r
  | SingleQuoted, EmptyString => None
  | SingleQuoted, String c r =>
      if Ascii.eqb c c_squote then go Unquoted word words r
      else go SingleQuoted (c :: word) words r
  | DoubleQuoted, EmptyString => None
  | DoubleQuoted, String c r =>
      if Ascii.eqb c c_dquote then go Unquoted word words r
      else if Ascii.eqb c c_backslash then go DoubleQuotedBackslash word words r
      else go DoubleQuoted (c :: word) words r
  | DoubleQuotedBackslash, EmptyString => None
  | DoubleQuotedBackslash, String c r =>
      if Ascii.eqb c c_nl then go DoubleQuoted word words r
      else if Ascii.eqb c c_dollar || Ascii.eqb c c_backtick
              || Ascii.eqb c c_dquote || Ascii.eqb c c_backslash
      then go DoubleQuoted (c :: word) words r
      else go DoubleQuoted (c :: c_backslash :: word) words r
  | Comment, EmptyString => Some (rev words)
  | Comment, String c r =>
      if Ascii.eqb c c_nl then go Delimiter word words r
      else go Comment word words r
  end.

(** [shell_words::split]: [inl] for [Ok], [inr] for [Err(ParseError)]. *)
Definition split (s : string) : list string + ParseError :=
  match go Delimiter [] [] s with
  | Some ws => inl ws
  | None => inr ParseErr
  end.

End ShellWords.

(** Paths ([PathBuf]) as their list of components; [join] appends one. *)
Definition path := list string.
Definition join (p : path) (c : string) : path := (p ++ [c])%list.

(** ** The stream-drain loop of [cargo_build] *)

Module Drain.

(** The [cargo_metadata::Message] variants [cargo_build] distinguishes;
    [Other] stands for the variants it ignores ([_ => {}]). *)
Record Artifact := mkArtifact {
  executable : option path;
  target_name : string
}.

Inductive Message :=
  | BuildScriptExecuted
  | TextLine (line : string)
  | CompilerMessage (diag : string)
  | CompilerArtifact (artifact : Artifact)
  | BuildFinished (success : bool)
  | Other.

(** The status updates sent on the progress channel. *)
Inductive Status :=
  | StatusBuildMessage (line : string)
  | StatusBuildError (line : string)
  | StatusBuildDiagnostic (diag : string)
  | StatusBuildProgress (units_compiled crate_count : nat) (name : string).

(** The locals of the loop, plus the statuses sent so far (oldest first). *)
Record DrainState := mkDrainState {
  output_location : option path;
  units_compiled : nat;
  emitting_error : bool;
  direct_rustc : list (list string);
  statuses : list Status
}.

Definition init_state : DrainState := mkDrainState None 0 false [] [].

Definition emit (st : DrainState) (s : Status) : DrainState :=
  mkDrainState st.(output_location) st.(units_compiled) st.(emitting_error)
    st.(direct_rustc) (st.(statuses) ++ [s])%list.

Definition set_output (st : DrainState) (p : path) : DrainState :=
  mkDrainState (Some p) st.(units_compiled) st.(emitting_error)
    st.(direct_rustc) st.(statuses).

Definition incr_units (st : DrainState) : DrainState :=
  mkDrainState st.(output_location) (S st.(units_compiled)) st.(emitting_error)
    st.(direct_rustc) st.(statuses).

Definition push_rustc (st : DrainState) (args : list string) : DrainState :=
  mkDrainState st.(output_location) st.(units_compiled) st.(emitting_error)
    (st.(direct_rustc) ++ [args])%list st.(statuses).

Definition set_error (st : DrainState) : DrainState :=
  mkDrainState st.(output_location) st.(units_compiled) true
    st.(direct_rustc) st.(statuses).

(** The arguments of a [Running `...`] line:
    [line.trim().trim_start_matches("Running `").trim_end_matches('`')]. *)
Definition running_args (line : string) : string :=
  RStr.trim_end_matches ShellWords.c_backtick
    (RStr.trim_start_matches "Running `" (RStr.trim line)).

(** The [Message::TextLine] arm. *)
Definition text_line (line : string) (st : DrainState) : DrainState :=
  let st1 :=
    if RStr.starts_with (RStr.trim line) "Running " then
      match ShellWords.split (running_args line) with
      | inl split => push_rustc st split
      | inr _ => st
      end
    else st in
  let st2 :=
    if RStr.starts_with (RStr.trim_start line) "error:" then set_error st1
    else st1 in
  if st2.(emitting_error) then emit st2 (StatusBuildError line)
  else emit st2 (StatusBuildMessage line).

(** Result of one loop iteration: keep draining, or [return Err(..)]. *)
Inductive StepResult :=
  | Continue (st : DrainState)
  | Abort (st : DrainState) (err : string).

Definition build_failed_msg : string :=
  "Cargo build failed, signaled by the compiler. Toggle tracing mode (press `t`) for more information.".

(** One iteration of the loop on a parsed message ([crate_count] is the
    unit-count estimate computed before the loop). *)
Definition step (crate_count : nat) (m : Message) (st : DrainState) : StepResult :=
  match m with
  | BuildScriptExecuted => Continue (incr_units st)
  | TextLine line => Continue (text_line line st)
  | CompilerMessage msg => Continue (emit st (StatusBuildDiagnostic msg))
  | CompilerArtifact artifact =>
      let st1 := incr_units st in
      match artifact.(executable) with
      | Some exe => Continue (set_output st1 exe)
      | None => Continue (emit st1 (StatusBuildProgress st1.(units_compiled)
                                     crate_count artifact.(target_name)))
      end
  | BuildFinished success =>
      if negb success then Abort st build_failed_msg else Continue st
  | Other => Continue st
  end.

(** The loop over the interleaved lines of stdout and stderr, each already
    run through [Message::parse_stream]; [None] is a line that yields no
    message ([continue]). *)
Fixpoint drain (crate_count : nat) (lines : list (option Message))
  (st : DrainState) : StepResult :=
  match lines with
  | [] => Continue st
  | None :: rest => drain crate_count rest st
  | Some m :: rest =>
      match step crate_count m st with
      | Continue st' => drain crate_count rest st'
      | Abort st' e => Abort st' e
      end
  end.

(** What [cargo_build] returns once the child is spawned. *)
Record BuildArtifacts := mkBuildArtifacts {
  exe : path;
  artifacts_direct_rustc : list (list string)
}.

Definition no_exe_msg : string := "Build did not return an executable".

Definition finish (crate_count : nat) (lines : list (option Message))
  : BuildArtifacts + string :=
  match drain crate_count lines init_state with
  | Abort _ e => inr e
  | Continue st =>
      match st.(output_location) with
      | None => inr no_exe_msg
      | Some exe => inl (mkBuildArtifacts exe st.(direct_rustc))
      end
  end.

(** Helpers for stating properties of the loop. *)

Definition state_of (r : StepResult) : DrainState :=
  match r with Continue st => st | Abort st _ => st end.

Definition text_lines (lines : list (option Message)) : list string :=
  flat_map (fun o => match o with Some (TextLine l) => [l] | _ => [] end) lines.

(** The statuses sent for free-text lines. *)
Definition text_statuses (ss : list Status) : list Status :=
  filter (fun s => match s with
                   | StatusBuildMessage _ | StatusBuildError _ => true
                   | _ => false
                   end) ss.

(** A free-text line whose trimmed content starts with ["error:"]. *)
Definition is_error_text (o : option Message) : bool :=
  match o with
  | Some (TextLine l) => RStr.starts_with (RStr.trim l) "error:"
  | _ => false
  end.

Definition is_build_failure (o : option Message) : bool :=
  match o with
  | Some (BuildFinished false) => true
  | _ => false
  end.

(** Summaries of a stream, for stating what the loop computes. *)

Definition counts_unit (o : option Message) : bool :=
  match o with
  | Some BuildScriptExecuted | Some (CompilerArtifact _) => true
  | _ => false
  end.

Definition count_units (lines : list (option Message)) : nat :=
  List.length (filter counts_unit lines).

Definition exe_of (acc : option path) (o : option Message) : option path :=
  match o with
  | Some (CompilerArtifact a) =>
      match a.(executable) with Some p => Some p | None => acc end
  | _ => acc
  end.

(** The path of the last artifact naming an executable, [acc] if none. *)
Definition last_executable (lines : list (option Message)) (acc : option path)
  : option path := fold_left exe_of lines acc.

Definition captured_of (o : option Message) : list (list string) :=
  match o with
  | Some (TextLine l) =>
      if RStr.starts_with (RStr.trim l) "Running " then
        match ShellWords.split (running_args l) with
        | inl ws => [ws]
        | inr _ => []
        end
      else []
  | _ => []
  end.

Definition captured (lines : list (option Message)) : list (list string) :=
  flat_map captured_of lines.

Definition diagnostics (lines : list (option Message)) : list string :=
  flat_map (fun o => match o with Some (CompilerMessage d) => [d] | _ => [] end) lines.

Definition diag_statuses (ss : list Status) : list string :=
  flat_map (fun s => match s with StatusBuildDiagnostic d => [d] | _ => [] end) ss.

(** The (units compiled, unit estimate) pairs of the progress statuses. *)
Definition progress_of (ss : list Status) : list (nat * nat) :=
  flat_map (fun s => match s with StatusBuildProgress n t _ => [(n, t)] | _ => [] end) ss.

Definition no_failure (lines : list (option Message)) : bool :=
  forallb (fun o => negb (is_build_failure o)) lines.

(** Progress reports so far: strictly increasing unit counts, none above the
    units counted, each carrying the estimate [cc]. *)
Definition progress_inv (cc : nat) (st : DrainState) : Prop :=
  StronglySorted lt (map fst (progress_of (statuses st))) /\
  Forall (fun q => snd q = cc) (progress_of (statuses st)) /\
  Forall (fun q => fst q <= units_compiled st) (progress_of (statuses st)).

End Drain.

(** ** The build request *)

Module Request.

Inductive Platform :=
  | Web | MacOS | Windows | Linux | Ios | Android | Server | Liveview.

Definition platform_eqb (a b : Platform) : bool :=
  match a, b with
  | Web, Web | MacOS, MacOS | Windows, Windows | Linux, Linux
  | Ios, Ios | Android, Android | Server, Server | Liveview, Liveview => true
  | _, _ => false
  end.

Inductive BuildMode :=
  | Base
  | Fat
  | Thin (direct_rustc : list (list string)).

(** [krates::cm::TargetKind], with the kinds [build_arguments] ignores
    collapsed into [OtherKind]. *)
Inductive TargetKind := Bin | Lib | Example | OtherKind.

(** [BuildRequest], flattened: the [BuildArgs] fields read by this file, the
    [DioxusCrate] queries it makes (their results), the process environment
    ([std::env::current_exe], its [dunce::canonicalize], [RUSTFLAGS]) and the
    build [mode]. [arch_triplet] and [arch_jnilib] are
    [target_args.arch().android_target_triplet()] and [.android_jnilib()]. *)
Record BuildRequest := mkBuildRequest {
  (* BuildArgs *)
  platform : Platform;
  release : bool;
  profile : option string;
  server_profile : string;
  target : option string;
  device : option bool;
  arch_triplet : string;
  arch_jnilib : string;
  no_default_features : bool;
  features : list string;
  client_features : list string;
  server_features : list string;
  package : option string;
  cargo_args : list string;
  experimental_wasm_split : bool;
  force_sequential : bool;
  fullstack : bool;
  (* DioxusCrate *)
  crate_dir : path;
  executable_type : TargetKind;
  executable_name : string;
  bundled_app_name : string;
  build_dir : Platform -> bool -> path;
  default_features : option (list string);
  android_ndk : option path;
  base_path : option string;
  app_title : string;
  (* process environment *)
  current_exe : option path;
  canonical_exe : option path;
  rustflags_env : option string;
  (* BuildRequest *)
  custom_target_dir : option path;
  mode : BuildMode
}.

(** Outcome of a fallible Rust function that may also panic
    ([todo!], [unwrap] on [None]). *)
Inductive Outcome (A : Type) :=
  | Ok (a : A)
  | Err (e : string)
  | Panic (msg : string).
Arguments Ok {A} a.
Arguments Err {A} e.
Arguments Panic {A} msg.

Definition bind {A B} (m : Outcome A) (k : A -> Outcome B) : Outcome B :=
  match m with
  | Ok a => k a
  | Err e => Err e
  | Panic s => Panic s
  end.

Notation "x <- m ;; k" := (bind m (fun x => k))
  (at level 61, m at next level, right associativity).

(** [Option::unwrap] *)
Definition unwrap {A} (o : option A) : Outcome A :=
  match o with
  | Some a => Ok a
  | None => Panic "called `Option::unwrap()` on a `None` value"
  end.

(** [Option::context(msg)?] *)
Definition context {A} (o : option A) (msg : string) : Outcome A :=
  match o with
  | Some a => Ok a
  | None => Err msg
  end.

Definition todo {A} : Outcome A := Panic "not yet implemented".

(** [Path::display] *)
Fixpoint display (p : path) : string :=
  match p with
  | [] => ""
  | [c] => c
  | c :: r => c ++ "/" ++ display r
  end.

(** *** Layout resolver *)

Section Layout.
Variable self : BuildRequest.

Definition platform_dir : path := self.(build_dir) self.(platform) self.(release).

Definition root_dir : path :=
  match self.(platform) with
  | Web => join platform_dir "public"
  | Server => platform_dir
  | MacOS => join platform_dir (self.(bundled_app_name) ++ ".app")
  | Ios => join platform_dir (self.(bundled_app_name) ++ ".app")
  | Android => join platform_dir "app"
  | Linux => join platform_dir "app"
  | Windows => join platform_dir "app"
  | Liveview => join platform_dir "app"
  end.

Definition exe_dir : path :=
  match self.(platform) with
  | MacOS => join (join root_dir "Contents") "MacOS"
  | Web => join root_dir "wasm"
  | Android =>
      join (join (join (join (join root_dir "app") "src") "main") "jniLibs")
        self.(arch_jnilib)
  | Windows | Linux | Ios | Server | Liveview => root_dir
  end.

Definition asset_dir : path :=
  match self.(platform) with
  | MacOS => join (join (join root_dir "Contents") "Resources") "assets"
  | Android => join (join (join (join root_dir "app") "src") "main") "assets"
  | Web | Ios | Windows | Linux | Server | Liveview => join root_dir "assets"
  end.

Definition incremental_cache_dir : path := join platform_dir "incremental-cache".

Definition wry_android_kotlin_files_out_dir : path :=
  fold_left join ["dev"; "dioxus"; "main"]
    (join (join (join (join root_dir "app") "src") "main") "kotlin").

End Layout.

(** *** Features *)

(** [Vec::dedup]: removes consecutive repeated elements. *)
Fixpoint dedup_from (prev : string) (l : list string) : list string :=
  match l with
  | [] => []
  | x :: r => if String.eqb x prev then dedup_from prev r else x :: dedup_from x r
  end.

Definition dedup (l : list string) : list string :=
  match l with
  | [] => []
  | x :: r => x :: dedup_from x r
  end.

Definition target_features (self : BuildRequest) : list string :=
  if platform_eqb self.(platform) Server
  then (self.(features) ++ self.(server_features))%list
  else (self.(features) ++ self.(client_features))%list.

Definition all_target_features (self : BuildRequest) : list string :=
  let fs := target_features self in
  let fs := if negb self.(no_default_features)
            then (fs ++ match self.(default_features) with
                        | Some d => d
                        | None => []
                        end)%list
            else fs in
  dedup fs.

(** *** Command assembly *)

Definition custom_target (self : BuildRequest) : option string :=
  match self.(platform) with
  | Web => Some "wasm32-unknown-unknown"
  | Ios => match self.(device) with
           | Some true => Some "aarch64-apple-ios"
           | _ => Some "aarch64-apple-ios-sim"
           end
  | Android => Some self.(arch_triplet)
  | Server | MacOS | Windows | Linux | Liveview => None
  end.

Definition profile_args (self : BuildRequest) : Outcome (list string) :=
  if platform_eqb self.(platform) Server then
    Ok ["--profile"; if self.(release) then "release" else self.(server_profile)]
  else
    p <- (match self.(profile), self.(release) with
          | None, false => Ok []
          | _, true => Ok ["--profile"; "release"]
          | Some c, false => Ok ["--profile"; c]
          end) ;;
    let t := match custom_target self with
             | Some t => Some t
             | None => self.(target)
             end in
    Ok (p ++ match t with Some t => ["--target"; t] | None => [] end)%list.

Definition kind_args (k : TargetKind) : list string :=
  match k with
  | Bin => ["--bin"]
  | Lib => ["--lib"]
  | Example => ["--example"]
  | OtherKind => []
  end.

(** [build_arguments]; the [-Clinker] of [Fat]/[Thin] builds is
    [dunce::canonicalize(std::env::current_exe().unwrap()).unwrap()]. *)
Definition build_arguments (self : BuildRequest) : Outcome (list string) :=
  p <- profile_args self ;;
  let fs := target_features self in
  let args :=
    (p ++ ["--verbose"]
       ++ (if self.(no_default_features) then ["--no-default-features"] else [])
       ++ (match fs with [] => [] | _ => ["--features"; String.concat " " fs] end)
       ++ (match self.(package) with Some pk => ["-p"; pk] | None => [] end)
       ++ self.(cargo_args)
       ++ kind_args self.(executable_type)
       ++ [self.(executable_name); "--"]
       ++ (if platform_eqb self.(platform) Web && self.(experimental_wasm_split)
           then ["-Clink-args=--emit-relocs"] else []))%list in
  match self.(mode) with
  | Fat | Thin _ =>
      exe <- unwrap self.(current_exe) ;;
      canon <- unwrap self.(canonical_exe) ;;
      Ok (args ++ [("-Clinker=" ++ display canon)%string])%list
  | Base => Ok args
  end.

Inductive LinkAction :=
  | BaseLink (platform : Platform) (linker : string) (incremental_dir : path)
      (strip : bool)
  | ThinLink (platform : Platform) (linker : string) (incremental_dir : path)
      (main_ptr : nat) (patch_target : path).

(** Values of the environment variables: plain strings, or the serialized
    [LinkAction] ([LinkAction::to_json]). *)
Inductive EnvVal :=
  | EStr (s : string)
  | ELink (a : LinkAction).

Record Command := mkCommand {
  program : string;
  cmd_args : list string;
  cmd_dir : path;
  cmd_envs : list (string * EnvVal)
}.

Section Assemble.

(** The Android toolchain queries of the selected [Arch] and the names of
    the environment variables, defined outside this file. *)
Variables (android_linker android_ar_path target_cc target_cxx : path -> path)
  (android_min_sdk_version : string) (java_home : option path)
  (link_env_var_name asset_root_env app_title_env : string).

Definition android_rust_flags (self : BuildRequest) : Outcome string :=
  let rust_flags := match self.(rustflags_env) with Some s => s | None => "" end in
  if platform_eqb self.(platform) Android then
    cur_exe <- unwrap self.(current_exe) ;;
    Ok (rust_flags ++ " -Clinker=" ++ display cur_exe
          ++ " -Clink-arg=-landroid" ++ " -Clink-arg=-llog"
          ++ " -Clink-arg=-lOpenSLES" ++ " -Clink-arg=-Wl,--export-dynamic")
  else Ok rust_flags.

Definition android_env_vars (self : BuildRequest)
  : Outcome (list (string * EnvVal)) :=
  ndk <- context self.(android_ndk) "Could not autodetect android linker" ;;
  let vars :=
    ([("ANDROID_NATIVE_API_LEVEL", EStr android_min_sdk_version);
      ("TARGET_AR", EStr (display (android_ar_path ndk)));
      ("TARGET_CC", EStr (display (target_cc ndk)));
      ("TARGET_CXX", EStr (display (target_cxx ndk)));
      ("ANDROID_NDK_ROOT", EStr (display ndk))]
     ++ match java_home with
        | Some j => [("JAVA_HOME", EStr (display j))]
        | None => []
        end
     ++ [("WRY_ANDROID_PACKAGE", EStr "dev.dioxus.main");
         ("WRY_ANDROID_LIBRARY", EStr "dioxusmain");
         ("WRY_ANDROID_KOTLIN_FILES_OUT_DIR",
           EStr (display (wry_android_kotlin_files_out_dir self)))])%list in
  rf <- android_rust_flags self ;;
  Ok (vars ++ [("RUSTFLAGS", EStr rf)])%list.

(** The linker table of [env_vars]: every arm is [todo!()]. *)
Definition linker_table (p : Platform) : Outcome unit :=
  match p with
  | Web => todo
  | MacOS => todo
  | Windows => todo
  | Linux => todo
  | Ios => todo
  | Android => todo
  | Server => todo
  | Liveview => todo
  end.

Definition env_vars (self : BuildRequest) : Outcome (list (string * EnvVal)) :=
  v1 <- (if platform_eqb self.(platform) Android then android_env_vars self
         else Ok []) ;;
  linker <- linker_table self.(platform) ;;
  custom_linker <-
    (if platform_eqb self.(platform) Android then
       ndk <- context self.(android_ndk) "Could not autodetect android linker" ;;
       Ok (Some (android_linker ndk))
     else Ok None) ;;
  link <-
    (match self.(mode) with
     | Base | Fat =>
         Ok (BaseLink self.(platform) "cc" (incremental_cache_dir self)
               (match self.(mode) with Base => true | _ => false end))
     | Thin _ =>
         main_ptr <- todo ;;
         patch_target <- todo ;;
         Ok (ThinLink self.(platform) "cc" (incremental_cache_dir self)
               main_ptr patch_target)
     end) ;;
  let v2 := (v1 ++ [(link_env_var_name, ELink link)])%list in
  let v3 := match self.(custom_target_dir) with
            | Some d => (v2 ++ [("CARGO_TARGET_DIR", EStr (display d))])%list
            | None => v2
            end in
  let v4 := if self.(release) then
              (v3 ++ match self.(base_path) with
                     | Some b => [(asset_root_env, EStr b)]
                     | None => []
                     end
                  ++ [(app_title_env, EStr self.(app_title))])%list
            else v3 in
  Ok v4.

Definition assemble_build_command (self : BuildRequest) : Outcome Command :=
  args <- build_arguments self ;;
  envs <- env_vars self ;;
  Ok (mkCommand "cargo"
        (["rustc"; "--message-format"; "json-diagnostic-rendered-ansi"] ++ args)%list
        self.(crate_dir) envs).

End Assemble.

(** *** Directory preparation *)

(** The filesystem operations of [prepare_build_dir]; [RenderWriteFile]
    renders a handlebars template and writes the result. *)
Inductive FsOp :=
  | RemoveDirAll (p : path)
  | CreateDirAll (p : path)
  | WriteFile (p : path)
  | RenderWriteFile (p : path) (template : string).

Definition fs_op_is_remove (o : FsOp) : bool :=
  match o with RemoveDirAll _ => true | _ => false end.

(** [build_android_app_dir], as the sequence of operations it performs. *)
Definition android_app_dir_ops (self : BuildRequest) : list FsOp :=
  let root := root_dir self in
  let wrapper := join (join root "gradle") "wrapper" in
  let app := join root "app" in
  let app_main := join (join app "src") "main" in
  let res := join app_main "res" in
  let mipmap d f := [CreateDirAll (join res d); WriteFile (join (join res d) f)] in
  ([CreateDirAll wrapper;
    CreateDirAll app; CreateDirAll app_main; CreateDirAll (join app_main "kotlin");
    CreateDirAll (join app_main "jniLibs"); CreateDirAll (join app_main "assets");
    CreateDirAll (wry_android_kotlin_files_out_dir self);
    WriteFile (join root "build.gradle.kts");
    WriteFile (join root "gradle.properties");
    WriteFile (join root "gradlew");
    WriteFile (join root "gradlew.bat");
    WriteFile (join root "settings.gradle");
    WriteFile (join wrapper "gradle-wrapper.properties");
    WriteFile (join wrapper "gradle-wrapper.jar");
    RenderWriteFile (join app "build.gradle.kts") "app/build.gradle.kts.hbs";
    WriteFile (join app "proguard-rules.pro");
    RenderWriteFile (join (join (join app "src") "main") "AndroidManifest.xml")
      "app/src/main/AndroidManifest.xml.hbs";
    RenderWriteFile (join (wry_android_kotlin_files_out_dir self) "MainActivity.kt")
      "MainActivity.kt.hbs";
    CreateDirAll res; CreateDirAll (join res "values");
    RenderWriteFile (join (join res "values") "strings.xml")
      "app/src/main/res/values/strings.xml.hbs";
    WriteFile (join (join res "values") "colors.xml");
    WriteFile (join (join res "values") "styles.xml")]
   ++ mipmap "drawable" "ic_launcher_background.xml"
   ++ mipmap "drawable-v24" "ic_launcher_foreground.xml"
   ++ mipmap "mipmap-anydpi-v26" "ic_launcher.xml"
   ++ mipmap "mipmap-hdpi" "ic_launcher.webp"
   ++ mipmap "mipmap-mdpi" "ic_launcher.webp"
   ++ mipmap "mipmap-xhdpi" "ic_launcher.webp"
   ++ mipmap "mipmap-xxhdpi" "ic_launcher.webp"
   ++ mipmap "mipmap-xxxhdpi" "ic_launcher.webp")%list.

(** The process-wide state: the [static INITIALIZED: OnceCell<Result<()>>]
    and the log of the filesystem operations performed so far. *)
Record ProcState := mkProcState {
  initialized : option (unit + string);
  fs_log : list FsOp
}.

Definition empty_proc : ProcState := mkProcState None [].

Section Prepare.

(** The filesystem: whether an operation fails ([Some err]) given the
    operations performed before it. *)
Variable fs_run : list FsOp -> FsOp -> option string.

(** Runs operations joined by [?]: stops at the first failure. *)
Fixpoint run_ops (log : list FsOp) (ops : list FsOp) : list FsOp * (unit + string) :=
  match ops with
  | [] => (log, inl tt)
  | o :: rest =>
      let log' := (log ++ [o])%list in
      match fs_run log o with
      | Some e => (log', inr e)
      | None => run_ops log' rest
      end
  end.

(** The closure given to [get_or_init]; the result of [remove_dir_all] is
    discarded. *)
Definition init_build_dir (self : BuildRequest) (log : list FsOp)
  : list FsOp * (unit + string) :=
  let log1 := (log ++ [RemoveDirAll (exe_dir self)])%list in
  run_ops log1
    ([CreateDirAll (root_dir self); CreateDirAll (exe_dir self);
      CreateDirAll (asset_dir self)]
     ++ (if platform_eqb self.(platform) Android
         then android_app_dir_ops self else []))%list.

Definition report (r : unit + string) : unit + string :=
  match r with
  | inl tt => inl tt
  | inr e => inr ("Failed to initialize build directory: " ++ e)
  end.

Definition prepare_build_dir (self : BuildRequest) (st : ProcState)
  : ProcState * (unit + string) :=
  match st.(initialized) with
  | Some r => (st, report r)
  | None =>
      let (log', r) := init_build_dir self st.(fs_log) in
      (mkProcState (Some r) log', report r)
  end.

(** Calls of [prepare_build_dir] in the order they reach the cell. *)
Fixpoint prepare_all (reqs : list BuildRequest) (st : ProcState)
  : ProcState * list (unit + string) :=
  match reqs with
  | [] => (st, [])
  | r :: rest =>
      let (st1, res) := prepare_build_dir r st in
      let (st2, ress) := prepare_all rest st1 in
      (st2, res :: ress)
  end.

End Prepare.

(** *** A concrete request, for evaluating the definitions *)

Definition platform_name (p : Platform) : string :=
  match p with
  | Web => "web" | MacOS => "macos" | Windows => "windows" | Linux => "linux"
  | Ios => "ios" | Android => "android" | Server => "server" | Liveview => "liveview"
  end.

(** A fullstack app [app] built with [--force-sequential] and
    [--features fullstack router], whose package's default features are
    [fullstack]. *)
Definition sample_request (p : Platform) (m : BuildMode) : BuildRequest :=
  mkBuildRequest p false None "server-dev" None None "aarch64-linux-android" "arm64-v8a"
    false ["fullstack"; "router"] [] ["server"] None [] false true true
    ["home"; "app"] Bin "app" "Foo"
    (fun p rel => ["home"; "app"; "target"; "dx"; "app";
                   if rel then "release" else "debug"; platform_name p])
    (Some ["fullstack"]) None None "app"
    (Some ["usr"; "bin"; "dx"]) (Some ["usr"; "bin"; "dx"]) None None m.

(** The same request with [force_sequential] set to [b]. *)
Definition with_force_sequential (b : bool) (r : BuildRequest) : BuildRequest :=
  mkBuildRequest r.(platform) r.(release) r.(profile) r.(server_profile) r.(target)
    r.(device) r.(arch_triplet) r.(arch_jnilib) r.(no_default_features) r.(features)
    r.(client_features) r.(server_features) r.(package) r.(cargo_args)
    r.(experimental_wasm_split) b r.(fullstack) r.(crate_dir) r.(executable_type)
    r.(executable_name) r.(bundled_app_name) r.(build_dir) r.(default_features)
    r.(android_ndk) r.(base_path) r.(app_title) r.(current_exe) r.(canonical_exe)
    r.(rustflags_env) r.(custom_target_dir) r.(mode).

(** The same request with the crate's executable name [n]. *)
Definition with_executable_name (n : string) (r : BuildRequest) : BuildRequest :=
  mkBuildRequest r.(platform) r.(release) r.(profile) r.(server_profile) r.(target)
    r.(device) r.(arch_triplet) r.(arch_jnilib) r.(no_default_features) r.(features)
    r.(client_features) r.(server_features) r.(package) r.(cargo_args)
    r.(experimental_wasm_split) r.(force_sequential) r.(fullstack) r.(crate_dir)
    r.(executable_type) n r.(bundled_app_name) r.(build_dir)
    r.(default_features) r.(android_ndk) r.(base_path) r.(app_title) r.(current_exe)
    r.(canonical_exe) r.(rustflags_env) r.(custom_target_dir) r.(mode).

(** *** Output files *)

Definition asset_optimizer_version_file (self : BuildRequest) : path :=
  join (platform_dir self) ".cli-version".

(** Splits a reversed file name at its first (so the name at its last) dot. *)
Fixpoint split_at_dot (l : list ascii) : option (list ascii * list ascii) :=
  match l with
  | [] => None
  | c :: r =>
      if Ascii.eqb c "."%char then Some ([], r)
      else match split_at_dot r with
           | Some (a, b) => Some (c :: a, b)
           | None => None
           end
  end.

(** [std::path]'s [rsplit_file_at_dot]: [file.rsplitn(2, '.')] as
    (before, after); a file whose last dot is its first character, and
    [..], have no extension. *)
Definition rsplit_file_at_dot (file : string) : option string * option string :=
  if String.eqb file ".." then (Some file, None)
  else match split_at_dot (rev (list_ascii_of_string file)) with
       | None => (None, Some file)
       | Some (ra, rb) =>
           match rb with
           | [] => (Some file, None)
           | _ => (Some (string_of_list_ascii (rev rb)),
                   Some (string_of_list_ascii (rev ra)))
           end
       end.

(** [Path::file_name] on a path given by its components: the last one,
    none for [..] or the empty path. *)
Definition file_name (p : path) : option string :=
  match rev p with
  | [] => None
  | c :: _ => if String.eqb c ".." then None else Some c
  end.

(** [Path::file_stem]: [before.or(after)]. *)
Definition file_stem (p : path) : option string :=
  match file_name p with
  | None => None
  | Some f =>
      let (before, after) := rsplit_file_at_dot f in
      match before with Some b => Some b | None => after end
  end.

(** [Path::with_extension]: [set_extension] on a copy, which cuts the path
    right after the file stem and appends [.ext] (nothing for an empty
    extension); a path without file name is left unchanged. *)
Definition with_extension (p : path) (ext : string) : path :=
  match file_stem p with
  | None => p
  | Some stem =>
      (removelast p ++ [if String.eqb ext "" then stem else (stem ++ "." ++ ext)%string])%list
  end.

Definition wasm_bindgen_out_dir (self : BuildRequest) : path :=
  join (root_dir self) "wasm".

Definition wasm_bindgen_js_output_file (self : BuildRequest) : path :=
  with_extension (join (wasm_bindgen_out_dir self) self.(executable_name)) "js".

Definition wasm_bindgen_wasm_output_file (self : BuildRequest) : path :=
  with_extension (join (wasm_bindgen_out_dir self) (self.(executable_name) ++ "_bg")) "wasm".

(** *** The build itself *)

(** The request with [build.platform] set to [p]. *)
Definition with_platform (p : Platform) (r : BuildRequest) : BuildRequest :=
  mkBuildRequest p r.(release) r.(profile) r.(server_profile) r.(target)
    r.(device) r.(arch_triplet) r.(arch_jnilib) r.(no_default_features) r.(features)
    r.(client_features) r.(server_features) r.(package) r.(cargo_args)
    r.(experimental_wasm_split) r.(force_sequential) r.(fullstack) r.(crate_dir)
    r.(executable_type) r.(executable_name) r.(bundled_app_name) r.(build_dir)
    r.(default_features) r.(android_ndk) r.(base_path) r.(app_title) r.(current_exe)
    r.(canonical_exe) r.(rustflags_env) r.(custom_target_dir) r.(mode).

(** [build_server], given the [cargo_build] it awaits. *)
Definition build_server {A} (cargo_build : BuildRequest -> Outcome A)
  (self : BuildRequest) : Outcome (option A) :=
  if negb self.(fullstack) then Ok None
  else a <- cargo_build (with_platform Server self) ;; Ok (Some a).

(** The unit count [cargo_build] announces: [Thin] builds compile one unit,
    the others use [get_unit_count_estimate] ([estimate]). *)
Definition crate_count (m : BuildMode) (estimate : nat) : nat :=
  match m with
  | Thin _ => 1
  | _ => estimate
  end.

Section CargoBuild.
Variables (android_linker android_ar_path target_cc target_cxx : path -> path)
  (android_min_sdk_version : string) (java_home : option path)
  (link_env_var_name asset_root_env app_title_env : string)
  (fs_run : list FsOp -> FsOp -> option string).

(** [cargo_build]: [estimate] is the result of [get_unit_count_estimate],
    [spawn_err] the failure of [spawn] if any, and [lines] the parsed output
    of the child. *)
Definition cargo_build (self : BuildRequest) (estimate : nat)
  (spawn_err : option string) (lines : list (option Drain.Message)) (st : ProcState)
  : ProcState * Outcome Drain.BuildArtifacts :=
  let (st', prep) := prepare_build_dir fs_run self st in
  (st', match prep with
        | inr e => Err e
        | inl _ =>
            cmd <- assemble_build_command android_linker android_ar_path target_cc
                     target_cxx android_min_sdk_version java_home link_env_var_name
                     asset_root_env app_title_env self ;;
            let cc := crate_count self.(mode) estimate in
            match spawn_err with
            | Some _ => Err "Failed to spawn cargo build"
            | None =>
                match Drain.finish cc lines with
                | inl a => Ok a
                | inr e => Err e
                end
            end
        end).

End CargoBuild.

(** *** Scheduling of [build_all] *)

(** The two builds [build_all] drives. *)
Inductive Task := AppBuild | ServerBuild.

(** A future as an executor sees it: a poll runs it on the process state up
    to its next suspension point ([Pending]) or to its end ([Ready]). *)
Inductive Fut (A : Type) :=
  | MkFut (poll : ProcState -> PollResult A)
with PollResult (A : Type) :=
  | Ready (st : ProcState) (r : Outcome A)
  | Pending (st : ProcState) (next : Fut A).
Arguments MkFut {A} poll.
Arguments Ready {A} st r.
Arguments Pending {A} st next.

(** [Ok(f(fut.await?))] as a future. *)
Fixpoint map_ok {A B} (f : A -> B) (fu : Fut A) : Fut B :=
  match fu with
  | MkFut p =>
      MkFut (fun st =>
        match p st with
        | Ready st' r => Ready st' (a <- r ;; Ok (f a))
        | Pending st' k => Pending st' (map_ok f k)
        end)
  end.

Section BuildAll.
Variables (android_linker android_ar_path target_cc target_cxx : path -> path)
  (android_min_sdk_version : string) (java_home : option path)
  (link_env_var_name asset_root_env app_title_env : string)
  (fs_run : list FsOp -> FsOp -> option string).

(** The part of [cargo_build] after command assembly (the unit-count
    estimate, the spawn and the output loop) as polled from the state after
    assembly, given the assembled command. *)
Variable rest : BuildRequest -> Command -> ProcState -> PollResult Drain.BuildArtifacts.

(** [cargo_build] as a future. [prepare_build_dir()?] and
    [assemble_build_command()?] come before its first [.await], so its first
    poll runs both. *)
Definition cargo_build_fut (self : BuildRequest) : Fut Drain.BuildArtifacts :=
  MkFut (fun st =>
    let (st', prep) := prepare_build_dir fs_run self st in
    match prep with
    | inr e => Ready st' (Err e)
    | inl _ =>
        match assemble_build_command android_linker android_ar_path target_cc
                target_cxx android_min_sdk_version java_home link_env_var_name
                asset_root_env app_title_env self with
        | Ok cmd => rest self cmd st'
        | Err e => Ready st' (Err e)
        | Panic m => Ready st' (Panic m)
        end
    end).

(** [build_server] as a future: [Ok(None)] at its first poll unless
    [fullstack] is set, otherwise [Ok(Some(cloned.cargo_build().await?))]. *)
Definition build_server_fut (self : BuildRequest) : Fut (option Drain.BuildArtifacts) :=
  if negb self.(fullstack) then MkFut (fun st => Ready st (Ok None))
  else map_ok Some (cargo_build_fut (with_platform Server self)).

End BuildAll.

(** [TryMaybeDone]: a future of [try_join], or its output. *)
Inductive MaybeDone (A : Type) :=
  | NotDone (f : Fut A)
  | Done (a : A).
Arguments NotDone {A} f.
Arguments Done {A} a.

(** One poll of a [TryMaybeDone]: whether the future ran, and the new state
    ([Ok]) or the error it returned or the panic it raised. *)
Definition poll_maybe {A} (m : MaybeDone A) (st : ProcState)
  : ProcState * bool * Outcome (MaybeDone A) :=
  match m with
  | Done a => (st, false, Ok (Done a))
  | NotDone (MkFut p) =>
      match p st with
      | Ready st' (Ok a) => (st', true, Ok (Done a))
      | Ready st' (Err e) => (st', true, Err e)
      | Ready st' (Panic s) => (st', true, Panic s)
      | Pending st' k => (st', true, Ok (NotDone k))
      end
  end.

(** [futures_util::future::try_join(f1, f2).await] for at most [fuel] polls.
    Each poll of the join polls [f1] unless it is done, then [f2] unless it
    is done; an error is returned as soon as one is seen (a panic
    propagates), the pair once both are done. [trace] lists the builds in
    the order they are polled, [f1] being the app build. [None]: not
    finished within [fuel] polls. *)
Fixpoint try_join {A B} (fuel : nat) (m1 : MaybeDone A) (m2 : MaybeDone B)
  (st : ProcState) (trace : list Task)
  : ProcState * list Task * option (Outcome (A * B)) :=
  match fuel with
  | O => (st, trace, None)
  | S f =>
      let '(st1, ran1, r1) := poll_maybe m1 st in
      let trace1 := if ran1 then (trace ++ [AppBuild])%list else trace in
      match r1 with
      | Err e => (st1, trace1, Some (Err e))
      | Panic s => (st1, trace1, Some (Panic s))
      | Ok m1' =>
          let '(st2, ran2, r2) := poll_maybe m2 st1 in
          let trace2 := if ran2 then (trace1 ++ [ServerBuild])%list else trace1 in
          match r2 with
          | Err e => (st2, trace2, Some (Err e))
          | Panic s => (st2, trace2, Some (Panic s))
          | Ok m2' =>
              match m1', m2' with
              | Done a, Done b => (st2, trace2, Some (Ok (a, b)))
              | _, _ => try_join f m1' m2' st2 trace2
              end
          end
      end
  end.

(** [fut.await] for at most [fuel] polls, the build being [t]. *)
Fixpoint run_fut {A} (fuel : nat) (t : Task) (fu : Fut A) (st : ProcState)
  (trace : list Task) : ProcState * list Task * option (Outcome A) :=
  match fuel with
  | O => (st, trace, None)
  | S n =>
      match fu with
      | MkFut p =>
          match p st with
          | Ready st' r => (st', (trace ++ [t])%list, Some r)
          | Pending st' k => run_fut n t k st' (trace ++ [t])%list
          end
      end
  end.

(** [build_all] up to [AppBundle::new], each future polled at most [fuel]
    times: [true => try_join(self.cargo_build(), self.build_server()).await?],
    [false => (self.cargo_build().await?, self.build_server().await?)]. *)
Definition build_all
  (android_linker android_ar_path target_cc target_cxx : path -> path)
  (android_min_sdk_version : string) (java_home : option path)
  (link_env_var_name asset_root_env app_title_env : string)
  (fs_run : list FsOp -> FsOp -> option string)
  (rest : BuildRequest -> Command -> ProcState -> PollResult Drain.BuildArtifacts)
  (self : BuildRequest) (fuel : nat) (st : ProcState)
  : ProcState * list Task
    * option (Outcome (Drain.BuildArtifacts * option Drain.BuildArtifacts)) :=
  let app := cargo_build_fut android_linker android_ar_path target_cc target_cxx
    android_min_sdk_version java_home link_env_var_name asset_root_env app_title_env
    fs_run rest self in
  let server := build_server_fut android_linker android_ar_path target_cc target_cxx
    android_min_sdk_version java_home link_env_var_name asset_root_env app_title_env
    fs_run rest self in
  if self.(force_sequential) then try_join fuel (NotDone app) (NotDone server) st []
  else
    let '(st1, tr1, r1) := run_fut fuel AppBuild app st [] in
    match r1 with
    | None => (st1, tr1, None)
    | Some (Err e) => (st1, tr1, Some (Err e))
    | Some (Panic s) => (st1, tr1, Some (Panic s))
    | Some (Ok a) =>
        let '(st2, tr2, r2) := run_fut fuel ServerBuild server st1 tr1 in
        (st2, tr2, match r2 with
                   | None => None
                   | Some r => Some (s <- r ;; Ok (a, s))
                   end)
    end.

(** *** Helpers for stating properties *)

Definition op_path (o : FsOp) : path :=
  match o with
  | RemoveDirAll p | CreateDirAll p | WriteFile p | RenderWriteFile p _ => p
  end.

(** [p] lies under [base] (or is [base]). *)
Definition under (base p : path) : Prop := exists l, p = (base ++ l)%list.

(** Every operation of [ops] succeeds when run in order after [log]. *)
Fixpoint all_ok (fs_run : list FsOp -> FsOp -> option string) (log ops : list FsOp)
  : Prop :=
  match ops with
  | [] => True
  | o :: rest => fs_run log o = None /\ all_ok fs_run (log ++ [o])%list rest
  end.

(** No two neighbours are equal. *)
Fixpoint adjacent_distinct (l : list string) : bool :=
  match l with
  | x :: ((y :: _) as rest) => negb (String.eqb x y) && adjacent_distinct rest
  | _ => true
  end.

End Request.

(** ** Facts about the string helpers *)

Module StrFacts.
Import RStr.

Lemma list_ascii_of_string_app (s1 s2 : string) :
  list_ascii_of_string (s1 ++ s2) = (list_ascii_of_string s1 ++ list_ascii_of_string s2)%list.
Proof. induction s1; simpl; congruence. Qed.

Lemma string_of_list_ascii_app (l1 l2 : list ascii) :
  string_of_list_ascii (l1 ++ l2) = (string_of_list_ascii l1 ++ string_of_list_ascii l2)%string.
Proof. induction l1; simpl; congruence. Qed.

Lemma string_app_assoc (a b c : string) : ((a ++ b) ++ c)%string = (a ++ (b ++ c))%string.
Proof. induction a; simpl; congruence. Qed.

Lemma prefix_app (p r : string) : String.prefix p (p ++ r) = true.
Proof.
  induction p; simpl; [destruct r; reflexivity|].
  destruct (ascii_dec a a); [exact IHp | congruence].
Qed.

Lemma prefix_inv (p s : string) : String.prefix p s = true -> exists r, s = (p ++ r)%string.
Proof.
  revert s; induction p as [|a p IH]; intros s H.
  - exists s; reflexivity.
  - destruct s as [|b s]; simpl in H; [discriminate|].
    destruct (ascii_dec a b) as [E|E]; [subst b|discriminate].
    destruct (IH s H) as [r Hr]; exists r; rewrite Hr; reflexivity.
Qed.

Lemma drop_while_app {A} (f : A -> bool) (a b : list A) :
  drop_while f (a ++ b) = (drop_while f a ++ b)%list \/
  drop_while f (a ++ b) = drop_while f b.
Proof.
  induction a as [|c a IH]; simpl; [right; reflexivity|].
  destruct (f c); [exact IH | left; reflexivity].
Qed.

Lemma drop_while_suffix {A} (f : A -> bool) (l : list A) :
  exists w, l = (w ++ drop_while f l)%list.
Proof.
  induction l as [|c l [w Hw]]; simpl; [exists []; reflexivity|].
  destruct (f c); [exists (c :: w); simpl; congruence | exists []; reflexivity].
Qed.

Lemma concat_chars (l : list ascii) : List.concat (chars l) = l.
Proof.
  induction l as [|b r IH]; [reflexivity|]; simpl.
  destruct (chars r) as [|[|c ch] cs]; simpl in *; subst; try reflexivity.
  destruct (is_continuation c); reflexivity.
Qed.

Lemma chars_head (b : ascii) (r : list ascii) :
  exists x cs, chars (b :: r) = (b :: x) :: cs.
Proof.
  simpl; destruct (chars r) as [|[|c ch] cs]; eauto.
  destruct (is_continuation c); eauto.
Qed.

(** A byte followed by a byte that is not a continuation byte is a
    character of its own. *)
Lemma chars_single (b c : ascii) (r : list ascii) :
  is_continuation c = false -> chars (b :: c :: r) = [b] :: chars (c :: r).
Proof.
  intros H; destruct (chars_head c r) as (x & cs & E).
  transitivity (match chars (c :: r) with
                | (c0 :: ch) :: cs0 => if is_continuation c0 then (b :: c0 :: ch) :: cs0
                                       else [b] :: (c0 :: ch) :: cs0
                | cs0 => [b] :: cs0
                end); [reflexivity|].
  rewrite E, H; reflexivity.
Qed.

(** [trim_end] keeps every character up to the last one that is not
    whitespace. *)
Lemma trim_end_keeps (s : string) (A : list (list ascii)) (c : list ascii)
  (B : list (list ascii)) :
  chars (list_ascii_of_string s) = (A ++ c :: B)%list -> is_whitespace c = false ->
  exists w, list_ascii_of_string (trim_end s) = (List.concat A ++ c ++ w)%list.
Proof.
  intros E Hc; unfold trim_end; rewrite list_ascii_of_string_of_list_ascii, E.
  rewrite rev_app_distr; simpl; rewrite <- app_assoc; simpl.
  assert (K : exists y, drop_while is_whitespace (rev B ++ c :: rev A)%list
                        = (y ++ c :: rev A)%list).
  { destruct (drop_while_app is_whitespace (rev B) (c :: rev A)) as [D|D]; rewrite D;
      [eauto|]. exists []; simpl; rewrite Hc; reflexivity. }
  destruct K as [y ->].
  exists (List.concat (rev y)).
  rewrite rev_app_distr; simpl; rewrite rev_involutive, <- app_assoc; simpl.
  rewrite !concat_app; simpl; rewrite ?app_nil_r, <- ?app_assoc; reflexivity.
Qed.

(** [trim_end s] is a prefix of [s]. *)
Lemma trim_end_prefix_of (s : string) : exists t, s = (trim_end s ++ t)%string.
Proof.
  unfold trim_end.
  destruct (drop_while_suffix is_whitespace (rev (chars (list_ascii_of_string s))))
    as [w Hw].
  exists (string_of_list_ascii (List.concat (rev w))).
  rewrite <- string_of_list_ascii_app, <- concat_app, <- rev_app_distr, <- Hw,
    rev_involutive, concat_chars.
  symmetry; apply string_of_list_ascii_of_string.
Qed.

Lemma trim_end_error_prefix (s : string) :
  String.prefix "error:" (trim_end s) = String.prefix "error:" s.
Proof.
  destruct (String.prefix "error:" s) eqn:Hs.
  - destruct (prefix_inv _ _ Hs) as [r ->].
    destruct (chars_head ":"%char (list_ascii_of_string r)) as (x & cs & Ec).
    assert (E : chars (list_ascii_of_string "error:" ++ list_ascii_of_string r)%list
                = ([["e"%char]; ["r"%char]; ["r"%char]; ["o"%char]; ["r"%char]]
                   ++ (":"%char :: x) :: cs)%list).
    { simpl list_ascii_of_string; cbn [app].
      rewrite !chars_single by reflexivity; rewrite Ec; reflexivity. }
    rewrite <- list_ascii_of_string_app in E.
    destruct (trim_end_keeps _ _ _ _ E) as [w Hw];
      [destruct x as [|? [|? [|? ?]]]; reflexivity|].
    rewrite <- (string_of_list_ascii_of_string (trim_end _)), Hw.
    simpl; destruct (string_of_list_ascii (x ++ w)); reflexivity.
  - destruct (String.prefix "error:" (trim_end s)) eqn:Ht; [|reflexivity].
    destruct (prefix_inv _ _ Ht) as [r Hr].
    destruct (trim_end_prefix_of s) as [t Ht'].
    rewrite Hr, string_app_assoc in Ht'. rewrite Ht', prefix_app in Hs. discriminate.
Qed.

(** Starting with ["error:"] after [trim] or after [trim_start] is the
    same test. *)
Lemma error_prefix_trim (l : string) :
  starts_with (trim l) "error:" = starts_with (trim_start l) "error:".
Proof. unfold starts_with, trim. apply trim_end_error_prefix. Qed.

End StrFacts.

(** ** Facts about the drain loop *)

Module DrainFacts.
Import Drain.

Lemma drain_app (cc : nat) (xs ys : list (option Message)) (st : DrainState) :
  drain cc (xs ++ ys) st =
  match drain cc xs st with
  | Continue st' => drain cc ys st'
  | Abort st' e => Abort st' e
  end.
Proof.
  revert st; induction xs as [|[m|] xs IH]; intros st; simpl; [reflexivity| |apply IH].
  destruct (step cc m st); [apply IH | reflexivity].
Qed.

Lemma text_statuses_app (a b : list Status) :
  text_statuses (a ++ b) = (text_statuses a ++ text_statuses b)%list.
Proof. apply filter_app. Qed.

Definition err_line (l : string) : bool := RStr.starts_with (RStr.trim_start l) "error:".

Lemma text_line_spec (line : string) (st : DrainState) :
  let st' := text_line line st in
  emitting_error st' = emitting_error st || err_line line /\
  statuses st' = (statuses st ++
     [if emitting_error st || err_line line then StatusBuildError line
      else StatusBuildMessage line])%list /\
  output_location st' = output_location st /\
  units_compiled st' = units_compiled st /\
  direct_rustc st' = (direct_rustc st ++
     (if RStr.starts_with (RStr.trim line) "Running " then
        match ShellWords.split (running_args line) with
        | inl split => [split]
        | inr _ => []
        end
      else []))%list.
Proof.
  unfold text_line, err_line; destruct st as [o u e d ss]; simpl.
  destruct (RStr.starts_with (RStr.trim line) "Running ");
  [destruct (ShellWords.split (running_args line))|];
  destruct (RStr.starts_with (RStr.trim_start line) "error:");
  destruct e; simpl; rewrite ?app_nil_r; repeat split.
Qed.

(** One iteration adds at most one free-text status and only raises the
    latch. *)
Lemma step_text (cc : nat) (m : Message) (st : DrainState) :
  let st' := state_of (step cc m st) in
  text_statuses (statuses st') = (text_statuses (statuses st) ++
    match m with
    | TextLine l => [if emitting_error st || err_line l then StatusBuildError l
                     else StatusBuildMessage l]
    | _ => []
    end)%list /\
  emitting_error st' = emitting_error st ||
    match m with TextLine l => err_line l | _ => false end.
Proof.
  destruct m as [| l | d | [[p|] n] | [|] |]; simpl;
    rewrite ?text_statuses_app, ?app_nil_r, ?orb_false_r; try (split; reflexivity).
  destruct (text_line_spec l st) as (E & S & _).
  rewrite E, S, text_statuses_app.
  destruct (emitting_error st || err_line l); split; reflexivity.
Qed.

Lemma step_abort (cc : nat) (m : Message) (st st' : DrainState) (e : string) :
  step cc m st = Abort st' e -> m = BuildFinished false /\ st' = st /\ e = build_failed_msg.
Proof.
  destruct m as [| l | d | [[p|] n] | [|] |]; simpl; intros H; inversion H; auto.
Qed.

Lemma step_no_abort (cc : nat) (m : Message) (st : DrainState) :
  m <> BuildFinished false -> step cc m st = Continue (state_of (step cc m st)).
Proof.
  intros Hm; destruct (step cc m st) eqn:E; [reflexivity|].
  apply step_abort in E; tauto.
Qed.

(** Before the first error line, free-text lines are reported as messages. *)
Lemma drain_before_latch (cc : nat) (xs : list (option Message)) (st : DrainState) :
  emitting_error st = false ->
  Forall (fun o => is_error_text o = false /\ is_build_failure o = false) xs ->
  exists st', drain cc xs st = Continue st' /\ emitting_error st' = false /\
    text_statuses (statuses st') =
      (text_statuses (statuses st) ++ map StatusBuildMessage (text_lines xs))%list.
Proof.
  revert st; induction xs as [|o xs IH]; intros st He Hall.
  - exists st; simpl; rewrite app_nil_r; auto.
  - inversion Hall as [|? ? [Ht Hf] Hrest]; subst.
    destruct o as [m|]; simpl.
    + assert (Hm : m <> BuildFinished false) by (intros ->; discriminate).
      rewrite (step_no_abort cc m st Hm).
      destruct (step_text cc m st) as [T E].
      assert (He' : emitting_error (state_of (step cc m st)) = false).
      { rewrite E, He; destruct m; try reflexivity.
        simpl in Ht; unfold err_line; rewrite <- StrFacts.error_prefix_trim; exact Ht. }
      destruct (IH _ He' Hrest) as (st' & D & E' & T').
      exists st'; split; [exact D|]; split; [exact E'|].
      rewrite T', T, <- app_assoc; f_equal.
      destruct m; try reflexivity.
      simpl in Ht |- *; rewrite He; unfold err_line;
        rewrite <- StrFacts.error_prefix_trim, Ht; reflexivity.
    + apply IH; assumption.
Qed.

(** Once the latch is set, every processed free-text line is an error. *)
Lemma drain_after_latch (cc : nat) (ys : list (option Message)) (st : DrainState) :
  emitting_error st = true ->
  exists ys1 ys2, ys = (ys1 ++ ys2)%list /\
    emitting_error (state_of (drain cc ys st)) = true /\
    text_statuses (statuses (state_of (drain cc ys st))) =
      (text_statuses (statuses st) ++ map StatusBuildError (text_lines ys1))%list /\
    ((ys2 = [] /\ drain cc ys st = Continue (state_of (drain cc ys st))) \/
     (exists rest, ys2 = Some (BuildFinished false) :: rest /\
        exists e, drain cc ys st = Abort (state_of (drain cc ys st)) e)).
Proof.
  revert st; induction ys as [|o ys IH]; intros st He.
  - exists [], []; simpl; rewrite app_nil_r; repeat split; auto.
  - destruct o as [m|].
    + simpl. destruct (step cc m st) eqn:S.
      * destruct (step_text cc m st) as [T E]; rewrite S in T, E; simpl in T, E.
        rewrite He in E, T; simpl in E, T.
        destruct (IH st0 E) as (ys1 & ys2 & -> & E' & T' & R).
        exists (Some m :: ys1), ys2; split; [reflexivity|]; split; [exact E'|]; split; [|exact R].
        rewrite T', T, <- app_assoc; f_equal; destruct m; reflexivity.
      * destruct (step_abort _ _ _ _ _ S) as (-> & -> & ->).
        exists [], (Some (BuildFinished false) :: ys); simpl.
        rewrite app_nil_r; split; [reflexivity|]; split; [exact He|]; split; [reflexivity|].
        right; exists ys; split; [reflexivity|]; exists build_failed_msg; reflexivity.
    + simpl. destruct (IH st He) as (ys1 & ys2 & -> & E' & T' & R).
      exists (None :: ys1), ys2; auto.
Qed.

End DrainFacts.

(** ** Stripping the [Running `...`] marker *)

Module RunningFacts.
Import RStr StrFacts.

Lemma substring0_full (r : string) (m : nat) :
  String.length r <= m -> substring 0 m r = r.
Proof.
  revert m; induction r as [|c r IH]; intros [|m] H; simpl in *; try lia.
  - reflexivity.
  - reflexivity.
  - rewrite IH; [reflexivity | lia].
Qed.

Lemma str_length_app (s1 s2 : string) :
  String.length (s1 ++ s2) = String.length s1 + String.length s2.
Proof. induction s1; simpl; congruence. Qed.

Lemma substring_after (p r : string) (m : nat) :
  String.length r <= m -> substring (String.length p) m (p ++ r) = r.
Proof.
  intros H; induction p as [|c p IH]; simpl; [apply substring0_full; exact H|exact IH].
Qed.

(** [trim_start_matches] strips the pattern as many times as it occurs at
    the front. *)
Lemma trim_start_matches_spec (pat : string) (fuel : nat) (t : string) :
  pat <> "" -> String.length t < fuel ->
  exists k rest, t = (str_repeat k pat ++ rest)%string /\
    String.prefix pat rest = false /\ trim_start_matches_fuel fuel pat t = rest.
Proof.
  intros Hp; revert t; induction fuel as [|f IH]; intros t Hl; [lia|].
  simpl; destruct (String.eqb_spec pat "") as [E|_]; [contradiction|].
  destruct (String.prefix pat t) eqn:Ht.
  - destruct (prefix_inv _ _ Ht) as [r ->].
    rewrite substring_after by (rewrite str_length_app; lia).
    assert (Hlen : String.length r < f).
    { rewrite str_length_app in Hl.
      destruct pat; [contradiction|simpl in Hl; lia]. }
    destruct (IH r Hlen) as (k & rest & -> & Hr & E).
    exists (S k), rest; simpl; rewrite string_app_assoc; auto.
  - exists 0, t; auto.
Qed.

Lemma drop_while_char_spec (c : ascii) (l : list ascii) :
  exists j l', l = (List.repeat c j ++ l')%list /\
    match l' with d :: _ => Ascii.eqb c d = false | [] => True end /\
    drop_while_char c l = l'.
Proof.
  induction l as [|d l (j & l' & E & H & D)]; [exists 0, []; auto|].
  simpl; destruct (Ascii.eqb c d) eqn:Ecd.
  - apply Ascii.eqb_eq in Ecd; subst d.
    exists (S j), l'; split; [simpl; congruence|auto].
  - exists 0, (d :: l); simpl; auto.
Qed.

Lemma string_of_repeat (c : ascii) (j : nat) :
  string_of_list_ascii (List.repeat c j) = str_repeat j (String c "").
Proof. induction j; simpl; congruence. Qed.

(** [trim_end_matches] strips every trailing occurrence of the character. *)
Lemma trim_end_matches_spec (c : ascii) (x : string) :
  exists body j, x = (body ++ str_repeat j (String c ""))%string /\
    ends_with_char c body = false /\ trim_end_matches c x = body.
Proof.
  destruct (drop_while_char_spec c (rev (list_ascii_of_string x))) as (j & l' & E & H & D).
  exists (string_of_list_ascii (rev l')), j.
  unfold trim_end_matches, ends_with_char; rewrite D.
  split; [|split; [|reflexivity]].
  - apply (f_equal (@rev ascii)) in E; rewrite rev_involutive, rev_app_distr in E.
    rewrite <- (string_of_list_ascii_of_string x), E, string_of_list_ascii_app.
    f_equal; rewrite rev_repeat; apply string_of_repeat.
  - rewrite list_ascii_of_string_of_list_ascii, rev_involutive.
    destruct l'; [reflexivity|exact H].
Qed.

End RunningFacts.

(** * Properties of the stream-drain loop *)

Import Drain.

(** C2 (counterexample): an artifact event naming an executable also
    increments the unit counter: [units_compiled += 1] runs before the
    [match artifact.executable]. *)
Lemma C2_executable_artifact_counts_unit :
  ~ (forall cc st a p, a.(executable) = Some p ->
       units_compiled (state_of (step cc (CompilerArtifact a) st)) = units_compiled st).
Proof.
  intros H.
  specialize (H 0 init_state (mkArtifact (Some ["target"; "debug"; "app"]) "app")
                ["target"; "debug"; "app"] eq_refl).
  discriminate H.
Qed.

(** C2 (amended): every produced-artifact event increments the unit counter
    by one; one naming an executable overwrites the recorded output location
    and reports nothing, any other reports progress with the incremented
    count and the target's name. Of two executable-naming events, the
    second one's path is the one recorded. *)
Theorem C2_artifact_event_amended :
  (forall cc st a,
     exists st', step cc (CompilerArtifact a) st = Continue st' /\
       units_compiled st' = S (units_compiled st) /\
       direct_rustc st' = direct_rustc st /\
       emitting_error st' = emitting_error st /\
       match a.(executable) with
       | Some p => output_location st' = Some p /\ statuses st' = statuses st
       | None => output_location st' = output_location st /\
                 statuses st' = (statuses st ++
                   [StatusBuildProgress (S (units_compiled st)) cc a.(target_name)])%list
       end) /\
  (forall cc st p1 n1 p2 n2,
     exists st', drain cc [Some (CompilerArtifact (mkArtifact (Some p1) n1));
                           Some (CompilerArtifact (mkArtifact (Some p2) n2))] st
                 = Continue st' /\ output_location st' = Some p2).
Proof.
  split.
  - intros cc [o u e d ss] [[p|] n]; simpl; eexists; split; try reflexivity;
      simpl; repeat split.
  - intros cc st p1 n1 p2 n2; simpl; eexists; split; reflexivity.
Qed.

(** C3: the sticky error latch. In a stream where [l] is the first free-text
    line whose trimmed content starts with ["error:"] (and the stream is not
    aborted before it), the free-text lines before [l] are reported as build
    messages, [l] and every later free-text line the loop processes as
    errors, and the latch is still set at the end. The loop processes all of
    the rest of the stream, unless a failed build-finished event aborts it. *)
Theorem C3_sticky_error_latch (cc : nat) (pre post : list (option Message)) (l : string) :
  RStr.starts_with (RStr.trim l) "error:" = true ->
  Forall (fun o => is_error_text o = false /\ is_build_failure o = false) pre ->
  let r := drain cc (pre ++ Some (TextLine l) :: post) init_state in
  exists post1 post2, post = (post1 ++ post2)%list /\
    text_statuses (statuses (state_of r)) =
      (map StatusBuildMessage (text_lines pre) ++
       StatusBuildError l :: map StatusBuildError (text_lines post1))%list /\
    emitting_error (state_of r) = true /\
    ((post2 = [] /\ r = Continue (state_of r)) \/
     (exists rest, post2 = Some (BuildFinished false) :: rest /\
        exists e, r = Abort (state_of r) e)).
Proof.
  intros Hl Hpre r.
  destruct (DrainFacts.drain_before_latch cc pre init_state eq_refl Hpre)
    as (st1 & D1 & E1 & T1).
  subst r; rewrite DrainFacts.drain_app, D1; simpl.
  destruct (DrainFacts.step_text cc (TextLine l) st1) as [T2 E2]; simpl in T2, E2.
  assert (Herr : DrainFacts.err_line l = true).
  { unfold DrainFacts.err_line; rewrite <- StrFacts.error_prefix_trim; exact Hl. }
  rewrite E1, Herr in E2; rewrite E1, Herr in T2; simpl in E2, T2.
  destruct (DrainFacts.drain_after_latch cc post _ E2) as (post1 & post2 & Hp & E3 & T3 & R).
  exists post1, post2; split; [exact Hp|]; split; [|split; [exact E3 | exact R]].
  rewrite T3, T2, T1; simpl; rewrite <- !app_assoc; reflexivity.
Qed.

(** C4 (counterexample): the marker is not stripped once.
    [trim_start_matches("Running `")] strips it as often as it repeats, so
    the trimmed line [Running `Running `rustc`] yields [["rustc"]], not the
    shell words of [Running `rustc]. *)
Lemma C4_running_marker_stripped_repeatedly :
  ~ (forall cc st line body ws,
       RStr.trim line = ("Running `" ++ body ++ "`")%string ->
       ShellWords.split body = inl ws ->
       exists st', step cc (TextLine line) st = Continue st' /\
         direct_rustc st' = (direct_rustc st ++ [ws])%list).
Proof.
  intros H.
  destruct (H 0 init_state "Running `Running `rustc`" "Running `rustc"
              ["Running"; "`rustc"]) as [st' [E D]];
    [vm_compute; reflexivity | vm_compute; reflexivity |].
  vm_compute in E; injection E as <-; vm_compute in D; discriminate D.
Qed.

(** C4 (amended): a free-text line whose trimmed content starts with
    ["Running "] is captured as follows. Every leading [Running `] marker
    is stripped (as many as there are), then every trailing backtick; the
    rest [body] is split into shell words, which are appended to the
    captured invocations, and nothing is appended if it does not split.
    The exact line [Running `rustc --crate-name foo -O`] appends
    [["rustc"; "--crate-name"; "foo"; "-O"]]. *)
Theorem C4_running_line_captured :
  (forall cc st,
     exists st', step cc (TextLine "Running `rustc --crate-name foo -O`") st = Continue st' /\
       direct_rustc st' = (direct_rustc st ++ [["rustc"; "--crate-name"; "foo"; "-O"]])%list) /\
  (forall cc st line,
     RStr.starts_with (RStr.trim line) "Running " = true ->
     exists k body j,
       RStr.trim line = (RStr.str_repeat k "Running `" ++ body ++ RStr.str_repeat j "`")%string /\
       String.prefix "Running `" (body ++ RStr.str_repeat j "`") = false /\
       RStr.ends_with_char ShellWords.c_backtick body = false /\
       exists st', step cc (TextLine line) st = Continue st' /\
         direct_rustc st' = (direct_rustc st ++
           match ShellWords.split body with inl ws => [ws] | inr _ => [] end)%list).
Proof.
  split.
  - intros cc st; simpl; eexists; split; [reflexivity|].
    destruct (DrainFacts.text_line_spec "Running `rustc --crate-name foo -O`" st)
      as (_ & _ & _ & _ & D).
    rewrite D; reflexivity.
  - intros cc st line Hr.
    destruct (RunningFacts.trim_start_matches_spec "Running `"
                (S (String.length (RStr.trim line))) (RStr.trim line))
      as (k & rest & Et & Hp & Es); [discriminate | lia |].
    destruct (RunningFacts.trim_end_matches_spec ShellWords.c_backtick rest)
      as (body & j & Er & Hb & Ee).
    exists k, body, j.
    split; [rewrite Et, Er; reflexivity|].
    split; [change (RStr.str_repeat j "`")
              with (RStr.str_repeat j (String ShellWords.c_backtick ""));
            rewrite <- Er; exact Hp|].
    split; [exact Hb|].
    simpl; eexists; split; [reflexivity|].
    destruct (DrainFacts.text_line_spec line st) as (_ & _ & _ & _ & D).
    rewrite D, Hr; unfold running_args, RStr.trim_start_matches; rewrite Es, Ee.
    reflexivity.
Qed.

(** C8: a build-finished event with a failure flag makes the loop return
    the fatal error, whatever was recorded before it; the events after it
    are never processed, and [cargo_build] returns that error. *)
Theorem C8_build_failure_is_fatal (cc : nat) (lines : list (option Message)) :
  In (Some (BuildFinished false)) lines ->
  (forall st, exists st', drain cc lines st = Abort st' build_failed_msg) /\
  finish cc lines = inr build_failed_msg /\
  (forall pre rest st, lines = (pre ++ Some (BuildFinished false) :: rest)%list ->
     drain cc lines st = drain cc (pre ++ [Some (BuildFinished false)]) st).
Proof.
  intros Hin.
  assert (A : forall st, exists st', drain cc lines st = Abort st' build_failed_msg).
  { clear - Hin; induction lines as [|o lines IH]; intros st; [destruct Hin|].
    destruct o as [m|]; simpl.
    - destruct (step cc m st) eqn:S.
      + destruct Hin as [Heq|Hin]; [inversion Heq; subst; discriminate S|].
        apply IH; exact Hin.
      + destruct (DrainFacts.step_abort _ _ _ _ _ S) as (_ & -> & ->); eauto.
    - destruct Hin as [Heq|Hin]; [discriminate|]; apply IH; exact Hin. }
  split; [exact A|]; split.
  - unfold finish; destruct (A init_state) as [st' ->]; reflexivity.
  - intros pre rest st ->; rewrite !DrainFacts.drain_app.
    destruct (drain cc pre st); reflexivity.
Qed.

(** C10: a [Running ] line whose arguments do not tokenize leaves the
    captured invocations unchanged, raises no error, and is still reported
    as a free-text status under the error latch. *)
Theorem C10_unparsable_running_line (cc : nat) (st : DrainState) (line : string)
  (e : ShellWords.ParseError) :
  RStr.starts_with (RStr.trim line) "Running " = true ->
  ShellWords.split (running_args line) = inr e ->
  exists st', step cc (TextLine line) st = Continue st' /\
    direct_rustc st' = direct_rustc st /\
    emitting_error st' = emitting_error st || RStr.starts_with (RStr.trim line) "error:" /\
    statuses st' = (statuses st ++
      [if emitting_error st || RStr.starts_with (RStr.trim line) "error:"
       then StatusBuildError line else StatusBuildMessage line])%list.
Proof.
  intros Hr Hs; simpl; eexists; split; [reflexivity|].
  destruct (DrainFacts.text_line_spec line st) as (E & S & _ & _ & D).
  rewrite StrFacts.error_prefix_trim.
  rewrite D, Hr, Hs, app_nil_r; split; [reflexivity|]; split; [exact E | exact S].
Qed.

(** Witnesses: the theorems above at concrete streams. *)

Lemma C3_sticky_error_latch_witness :
  RStr.starts_with (RStr.trim "error[E0308]: mismatched types") "error:" = false /\
  RStr.starts_with (RStr.trim (RStr.nbsp ++ "error: could not compile `app`  ")%string) "error:" = true /\
  exists post1 post2,
    [Some (TextLine "  --> src/main.rs:3:5"); Some (BuildFinished false)]
    = (post1 ++ post2)%list /\
    text_statuses (statuses (state_of
      (drain 2 ([Some (TextLine "   Compiling app v0.1.0"); None]
                ++ Some (TextLine (RStr.nbsp ++ "error: could not compile `app`  ")%string)
                :: [Some (TextLine "  --> src/main.rs:3:5"); Some (BuildFinished false)])
         init_state))) =
      (map StatusBuildMessage (text_lines [Some (TextLine "   Compiling app v0.1.0"); None]) ++
       StatusBuildError (RStr.nbsp ++ "error: could not compile `app`  ")%string
       :: map StatusBuildError (text_lines post1))%list /\
    emitting_error (state_of
      (drain 2 ([Some (TextLine "   Compiling app v0.1.0"); None]
                ++ Some (TextLine (RStr.nbsp ++ "error: could not compile `app`  ")%string)
                :: [Some (TextLine "  --> src/main.rs:3:5"); Some (BuildFinished false)])
         init_state)) = true /\
    ((post2 = [] /\
      drain 2 ([Some (TextLine "   Compiling app v0.1.0"); None]
               ++ Some (TextLine (RStr.nbsp ++ "error: could not compile `app`  ")%string)
               :: [Some (TextLine "  --> src/main.rs:3:5"); Some (BuildFinished false)])
        init_state
      = Continue (state_of
          (drain 2 ([Some (TextLine "   Compiling app v0.1.0"); None]
                    ++ Some (TextLine (RStr.nbsp ++ "error: could not compile `app`  ")%string)
                    :: [Some (TextLine "  --> src/main.rs:3:5"); Some (BuildFinished false)])
             init_state))) \/
     (exists rest, post2 = Some (BuildFinished false) :: rest /\
        exists e,
        drain 2 ([Some (TextLine "   Compiling app v0.1.0"); None]
                 ++ Some (TextLine (RStr.nbsp ++ "error: could not compile `app`  ")%string)
                 :: [Some (TextLine "  --> src/main.rs:3:5"); Some (BuildFinished false)])
          init_state
        = Abort (state_of
            (drain 2 ([Some (TextLine "   Compiling app v0.1.0"); None]
                      ++ Some (TextLine (RStr.nbsp ++ "error: could not compile `app`  ")%string)
                      :: [Some (TextLine "  --> src/main.rs:3:5"); Some (BuildFinished false)])
               init_state)) e)).
Proof.
  split; [reflexivity|]; split; [reflexivity|].
  apply (C3_sticky_error_latch 2 [Some (TextLine "   Compiling app v0.1.0"); None]
           [Some (TextLine "  --> src/main.rs:3:5"); Some (BuildFinished false)]
           (RStr.nbsp ++ "error: could not compile `app`  ")%string).
  - reflexivity.
  - repeat constructor.
Defined.

Lemma C4_running_line_captured_witness :
  RStr.starts_with (RStr.trim (RStr.nbsp ++ " Running `rustc --crate-name app src/main.rs`  ")%string) "Running " = true /\
  exists k body j,
    RStr.trim (RStr.nbsp ++ " Running `rustc --crate-name app src/main.rs`  ")%string
      = (RStr.str_repeat k "Running `" ++ body ++ RStr.str_repeat j "`")%string /\
    String.prefix "Running `" (body ++ RStr.str_repeat j "`") = false /\
    RStr.ends_with_char ShellWords.c_backtick body = false /\
    exists st', step 0 (TextLine (RStr.nbsp ++ " Running `rustc --crate-name app src/main.rs`  ")%string) init_state = Continue st' /\
      direct_rustc st' = (direct_rustc init_state ++
        match ShellWords.split body with inl ws => [ws] | inr _ => [] end)%list.
Proof.
  split; [vm_compute; reflexivity|].
  apply (proj2 C4_running_line_captured 0 init_state (RStr.nbsp ++ " Running `rustc --crate-name app src/main.rs`  ")%string).
  vm_compute; reflexivity.
Defined.

Lemma C8_build_failure_is_fatal_witness :
  In (Some (BuildFinished false))
     [Some (CompilerArtifact (mkArtifact (Some ["target"; "debug"; "app"]) "app"));
      Some (BuildFinished false)] /\
  ((forall st, exists st', drain 1
      [Some (CompilerArtifact (mkArtifact (Some ["target"; "debug"; "app"]) "app"));
       Some (BuildFinished false)] st = Abort st' build_failed_msg) /\
   finish 1 [Some (CompilerArtifact (mkArtifact (Some ["target"; "debug"; "app"]) "app"));
             Some (BuildFinished false)] = inr build_failed_msg /\
   (forall pre rest st,
      [Some (CompilerArtifact (mkArtifact (Some ["target"; "debug"; "app"]) "app"));
       Some (BuildFinished false)] = (pre ++ Some (BuildFinished false) :: rest)%list ->
      drain 1 [Some (CompilerArtifact (mkArtifact (Some ["target"; "debug"; "app"]) "app"));
               Some (BuildFinished false)] st
      = drain 1 (pre ++ [Some (BuildFinished false)]) st)).
Proof.
  assert (H : In (Some (BuildFinished false))
     [Some (CompilerArtifact (mkArtifact (Some ["target"; "debug"; "app"]) "app"));
      Some (BuildFinished false)]) by (simpl; auto).
  split; [exact H|].
  apply (C8_build_failure_is_fatal 1 _ H).
Defined.

Lemma C10_unparsable_running_line_witness :
  RStr.starts_with (RStr.trim (RStr.ideographic_space ++ "Running `rustc --cfg 'feature`")%string) "Running " = true /\
  ShellWords.split (running_args (RStr.ideographic_space ++ "Running `rustc --cfg 'feature`")%string)
    = inr ShellWords.ParseErr /\
  exists st', step 0 (TextLine (RStr.ideographic_space ++ "Running `rustc --cfg 'feature`")%string) init_state
                = Continue st' /\
    direct_rustc st' = direct_rustc init_state /\
    emitting_error st' = emitting_error init_state ||
      RStr.starts_with (RStr.trim (RStr.ideographic_space ++ "Running `rustc --cfg 'feature`")%string) "error:" /\
    statuses st' = (statuses init_state ++
      [if emitting_error init_state ||
          RStr.starts_with (RStr.trim (RStr.ideographic_space ++ "Running `rustc --cfg 'feature`")%string) "error:"
       then StatusBuildError (RStr.ideographic_space ++ "Running `rustc --cfg 'feature`")%string
       else StatusBuildMessage (RStr.ideographic_space ++ "Running `rustc --cfg 'feature`")%string])%list.
Proof.
  split; [reflexivity|]; split; [vm_compute; reflexivity|].
  apply (C10_unparsable_running_line 0 init_state
           (RStr.ideographic_space ++ "Running `rustc --cfg 'feature`")%string ShellWords.ParseErr);
    vm_compute; reflexivity.
Defined.

(** * Properties of the build request *)

Import Request.

(** ** Command assembly *)

Lemma linker_table_panics (p : Platform) : linker_table p = Panic "not yet implemented".
Proof. destruct p; reflexivity. Qed.

Lemma profile_args_ok (r : BuildRequest) : exists a, profile_args r = Ok a.
Proof.
  unfold profile_args; destruct (platform_eqb (platform r) Server); [eauto|].
  destruct (profile r), (release r); simpl; eauto.
Qed.


Section AssembleProofs.
Variables (android_linker android_ar_path target_cc target_cxx : path -> path)
  (android_min_sdk_version : string) (java_home : option path)
  (link_env_var_name asset_root_env app_title_env : string).

Abbreviation assemble := (assemble_build_command android_linker android_ar_path
  target_cc target_cxx android_min_sdk_version java_home link_env_var_name
  asset_root_env app_title_env).
Abbreviation envs := (env_vars android_linker android_ar_path target_cc target_cxx
  android_min_sdk_version java_home link_env_var_name asset_root_env app_title_env).

Lemma env_vars_never_ok (r : BuildRequest) :
  (platform r = Android -> android_ndk r = None ->
     envs r = Err "Could not autodetect android linker") /\
  (platform r <> Android \/ android_ndk r <> None -> exists m, envs r = Panic m).
Proof.
  unfold env_vars; split.
  - intros Hp Hn; rewrite Hp; simpl; unfold android_env_vars; rewrite Hn; reflexivity.
  - intros H; destruct (platform_eqb (platform r) Android) eqn:Hp.
    + assert (platform r = Android) by (destruct (platform r); try discriminate; reflexivity).
      destruct H as [H|H]; [contradiction|].
      unfold android_env_vars; destruct (android_ndk r); [|contradiction].
      simpl; unfold android_rust_flags; rewrite Hp; destruct (current_exe r); simpl;
        rewrite ?linker_table_panics; simpl; eauto.
    + simpl; rewrite linker_table_panics; simpl; eauto.
Qed.


End AssembleProofs.



(** ** Directory preparation *)

Section PrepareProofs.
Variable fs_run : list FsOp -> FsOp -> option string.

Lemma prepare_all_cached (reqs : list BuildRequest) (st : ProcState) (r : unit + string) :
  initialized st = Some r ->
  prepare_all fs_run reqs st = (st, repeat (report r) (List.length reqs)).
Proof.
  intros H; induction reqs as [|q reqs IH]; simpl; [reflexivity|].
  unfold prepare_build_dir; rewrite H, IH; reflexivity.
Qed.

Lemma run_ops_log (log ops : list FsOp) :
  exists k, fst (run_ops fs_run log ops) = (log ++ firstn k ops)%list.
Proof.
  revert log; induction ops as [|o ops IH]; intros log; simpl.
  - exists 0; rewrite app_nil_r; reflexivity.
  - destruct (fs_run log o).
    + exists 1; reflexivity.
    + destruct (IH (log ++ [o])%list) as [k Hk]; exists (S k); rewrite Hk, <- app_assoc;
        reflexivity.
Qed.

Lemma filter_firstn_nil {A} (f : A -> bool) (l : list A) (k : nat) :
  filter f l = [] -> filter f (firstn k l) = [].
Proof.
  revert k; induction l as [|x l IH]; intros [|k] H; simpl in *; try reflexivity.
  destruct (f x); [discriminate | apply IH, H].
Qed.

(** The only destructive operation of the initialisation is its first one. *)
Lemma init_build_dir_removes_once (r : BuildRequest) :
  List.length (filter fs_op_is_remove (fst (init_build_dir fs_run r []))) = 1.
Proof.
  unfold init_build_dir.
  match goal with |- context [run_ops fs_run ?log ?ops] =>
    destruct (run_ops_log log ops) as [k ->] end.
  rewrite filter_app, filter_firstn_nil; [reflexivity|].
  destruct (platform_eqb (platform r) Android); reflexivity.
Qed.

(** C5: [prepare_build_dir] runs its initialisation at most once per
    process. For any [N >= 1] calls (in the order [get_or_init] serialises
    them), the filesystem operations performed are exactly those of the
    first call's initialisation, with a single [remove_dir_all]; every call
    returns the first call's (possibly failed) outcome; and a call made once
    the cell is set changes nothing. *)
Theorem C5_prepare_build_dir_once (r0 : BuildRequest) (rest : list BuildRequest) :
  fs_log (fst (prepare_all fs_run (r0 :: rest) empty_proc))
    = fst (init_build_dir fs_run r0 []) /\
  List.length (filter fs_op_is_remove
    (fs_log (fst (prepare_all fs_run (r0 :: rest) empty_proc)))) = 1 /\
  snd (prepare_all fs_run (r0 :: rest) empty_proc)
    = repeat (report (snd (init_build_dir fs_run r0 []))) (S (List.length rest)) /\
  (forall r st res, initialized st = Some res ->
     prepare_build_dir fs_run r st = (st, report res)).
Proof.
  assert (Hfirst : prepare_all fs_run (r0 :: rest) empty_proc =
    (mkProcState (Some (snd (init_build_dir fs_run r0 [])))
                 (fst (init_build_dir fs_run r0 [])),
     repeat (report (snd (init_build_dir fs_run r0 []))) (S (List.length rest)))).
  { simpl; unfold prepare_build_dir; simpl.
    destruct (init_build_dir fs_run r0 []) as [log0 res0]; simpl.
    rewrite (prepare_all_cached rest (mkProcState (Some res0) log0) res0 eq_refl);
      reflexivity. }
  rewrite Hfirst; simpl; split; [reflexivity|]; split; [apply init_build_dir_removes_once|].
  split; [reflexivity|].
  intros r st res H; unfold prepare_build_dir; rewrite H; reflexivity.
Qed.

End PrepareProofs.

(** The filesystem of the witness: creating a directory fails once, for the
    web root. *)
Definition readonly_public (log : list FsOp) (o : FsOp) : option string :=
  match o with
  | CreateDirAll p => if existsb (String.eqb "public") p then Some "Permission denied" else None
  | _ => None
  end.

Lemma C5_prepare_build_dir_once_witness :
  initialized (fst (prepare_all readonly_public [sample_request Web Base] empty_proc))
    = Some (inr "Permission denied") /\
  prepare_build_dir readonly_public (sample_request Server Base)
    (fst (prepare_all readonly_public [sample_request Web Base] empty_proc))
  = (fst (prepare_all readonly_public [sample_request Web Base] empty_proc),
     report (inr "Permission denied")).
Proof.
  split; [reflexivity|].
  apply (proj2 (proj2 (proj2 (C5_prepare_build_dir_once readonly_public
           (sample_request Web Base) [sample_request Server Base])))).
  reflexivity.
Defined.

(** ** Features *)

Lemma dedup_from_idem (x : string) (l : list string) :
  dedup_from x (dedup_from x l) = dedup_from x l.
Proof.
  revert x; induction l as [|y l IH]; intros x; simpl; [reflexivity|].
  destruct (String.eqb y x) eqn:E; [apply IH|].
  simpl; rewrite E, IH; reflexivity.
Qed.

Lemma dedup_idem (l : list string) : dedup (dedup l) = dedup l.
Proof. destruct l as [|x l]; simpl; [reflexivity|]; rewrite dedup_from_idem; reflexivity. Qed.

(** C7 (code_bug): [Vec::dedup] only drops consecutive repeats, so the
    merged features keep a duplicate when a default feature was also given
    explicitly with another feature between them; re-applying the
    de-duplication changes nothing. *)
Theorem C7_all_target_features_keeps_duplicates :
  all_target_features (sample_request Web Base) = ["fullstack"; "router"; "fullstack"] /\
  ~ NoDup (all_target_features (sample_request Web Base)) /\
  (forall r, dedup (all_target_features r) = all_target_features r).
Proof.
  split; [reflexivity|]; split.
  - change (all_target_features (sample_request Web Base))
      with ["fullstack"; "router"; "fullstack"].
    intros H; inversion H as [|? ? Hn _]; subst; apply Hn; simpl; auto.
  - intros r; unfold all_target_features; apply dedup_idem.
Qed.

(** ** Layout resolver *)

(** C9: the layout resolver is a function of the platform, the release
    flag, the bundled app name, the Android ABI directory and the crate's
    build directory only; on macOS with bundled name [Foo] the executable
    directory ends in [Foo.app/Contents/MacOS]; on the web the root ends in
    [public] and the executable directory in [wasm]. *)
Theorem C9_layout_resolver :
  (forall r, platform r = MacOS -> bundled_app_name r = "Foo" ->
     exists pre, exe_dir r = (pre ++ ["Foo.app"; "Contents"; "MacOS"])%list) /\
  (forall r, platform r = Web ->
     (exists pre, root_dir r = (pre ++ ["public"])%list) /\
     (exists pre, exe_dir r = (pre ++ ["public"; "wasm"])%list)) /\
  (forall r r', platform r = platform r' -> release r = release r' ->
     bundled_app_name r = bundled_app_name r' -> arch_jnilib r = arch_jnilib r' ->
     build_dir r = build_dir r' ->
     root_dir r = root_dir r' /\ exe_dir r = exe_dir r' /\ asset_dir r = asset_dir r').
Proof.
  split; [|split].
  - intros r Hp Hn; unfold exe_dir, root_dir, join; rewrite Hp, Hn.
    exists (platform_dir r); rewrite <- !app_assoc; reflexivity.
  - intros r Hp; unfold exe_dir, root_dir, join; rewrite Hp; split;
      exists (platform_dir r); rewrite <- ?app_assoc; reflexivity.
  - intros r r' Hp Hr Hn Ha Hb.
    assert (R : root_dir r = root_dir r')
      by (unfold root_dir, platform_dir; rewrite Hp, Hr, Hn, Hb; reflexivity).
    unfold exe_dir, asset_dir; rewrite R, Hp, Ha; repeat split.
Qed.

Lemma C9_layout_resolver_witness :
  exe_dir (sample_request MacOS Base)
    = (["home"; "app"; "target"; "dx"; "app"; "debug"; "macos"]
       ++ ["Foo.app"; "Contents"; "MacOS"])%list /\
  (exists pre, root_dir (sample_request Web Base) = (pre ++ ["public"])%list) /\
  root_dir (sample_request Android Base) = root_dir (sample_request Android (Thin [])) /\
  exe_dir (sample_request Android Base) = exe_dir (sample_request Android (Thin [])) /\
  asset_dir (sample_request Android Base) = asset_dir (sample_request Android (Thin [])) /\
  (exists pre, exe_dir (sample_request MacOS Fat) = (pre ++ ["Foo.app"; "Contents"; "MacOS"])%list).
Proof.
  destruct C9_layout_resolver as [M [W D]].
  split; [reflexivity|]; split; [apply (proj1 (W (sample_request Web Base) eq_refl))|].
  destruct (D (sample_request Android Base) (sample_request Android (Thin []))
              eq_refl eq_refl eq_refl eq_refl eq_refl) as [A [B C]].
  split; [exact A|]; split; [exact B|]; split; [exact C|].
  apply (M (sample_request MacOS Fat)); reflexivity.
Defined.

(** ** What the drain loop computes *)

Section DrainSummary.
Import Drain DrainFacts.

Lemma step_fields (cc : nat) (m : Message) (st : DrainState) :
  m <> BuildFinished false ->
  let st' := state_of (step cc m st) in
  units_compiled st' = units_compiled st + (if counts_unit (Some m) then 1 else 0) /\
  output_location st' = exe_of (output_location st) (Some m) /\
  direct_rustc st' = (direct_rustc st ++ captured_of (Some m))%list /\
  diag_statuses (statuses st') = (diag_statuses (statuses st) ++ diagnostics [Some m])%list /\
  progress_of (statuses st') = (progress_of (statuses st) ++
    match m with
    | CompilerArtifact a =>
        match executable a with
        | None => [(S (units_compiled st), cc)]
        | Some _ => []
        end
    | _ => []
    end)%list.
Proof.
  intros Hm; destruct m as [| l | d | [[p|] n] | [|] |]; simpl;
    unfold diag_statuses, progress_of; simpl;
    rewrite ?flat_map_app; simpl; rewrite ?app_nil_r;
    try (repeat split; try reflexivity; lia).
  - destruct (text_line_spec l st) as (E & S & O & U & D).
    rewrite S, O, U, D, !flat_map_app; simpl.
    destruct (emitting_error st || err_line l); simpl; rewrite !app_nil_r;
      repeat split; try reflexivity; lia.
Qed.

Lemma drain_summary_gen (cc : nat) (lines : list (option Message)) (st : DrainState) :
  no_failure lines = true ->
  exists st', drain cc lines st = Continue st' /\
    units_compiled st' = units_compiled st + count_units lines /\
    output_location st' = last_executable lines (output_location st) /\
    direct_rustc st' = (direct_rustc st ++ captured lines)%list /\
    diag_statuses (statuses st') = (diag_statuses (statuses st) ++ diagnostics lines)%list.
Proof.
  revert st; induction lines as [|[m|] lines IH]; intros st H.
  - exists st; unfold count_units, last_executable, captured, diagnostics; simpl;
    rewrite !app_nil_r; repeat split; try reflexivity; lia.
  - simpl in H; apply andb_prop in H as [H1 H2].
    assert (Hm : m <> BuildFinished false) by (intros ->; discriminate).
    simpl; rewrite (step_no_abort cc m st Hm).
    destruct (step_fields cc m st Hm) as (U & O & D & G & _).
    destruct (IH (state_of (step cc m st)) H2) as (st' & R & U' & O' & D' & G').
    exists st'; split; [exact R|].
    rewrite U', O', D', G', U, O, D, G.
    unfold count_units, captured, diagnostics; simpl.
    rewrite <- !app_assoc; repeat split; try reflexivity.
    destruct m; simpl; lia.
  - simpl in H |- *; destruct (IH st H) as (st' & R & U & O & D & G).
    exists st'; auto.
Qed.

Lemma drain_failure (cc : nat) (lines : list (option Message)) (st : DrainState) :
  no_failure lines = false -> exists st', drain cc lines st = Abort st' build_failed_msg.
Proof.
  revert st; induction lines as [|[m|] lines IH]; intros st H; [discriminate| |].
  - simpl in H |- *.
    destruct (step cc m st) eqn:S.
    + apply IH.
      destruct m as [| | | | [|] |]; simpl in H; try exact H; discriminate S.
    + apply step_abort in S as (-> & -> & ->); eauto.
  - apply IH; exact H.
Qed.

End DrainSummary.

Section DrainProgress.
Import Drain DrainFacts.

Lemma sorted_snoc (l : list nat) (y : nat) :
  StronglySorted lt l -> Forall (fun x => x < y) l -> StronglySorted lt (l ++ [y]).
Proof.
  induction l as [|x l IH]; intros S F; simpl.
  - repeat constructor.
  - inversion S; inversion F; subst; constructor; [auto|].
    apply Forall_app; split; auto.
Qed.

Lemma step_progress_inv (cc : nat) (m : Message) (st : DrainState) :
  progress_inv cc st -> progress_inv cc (state_of (step cc m st)).
Proof.
  intros (S & T & B).
  assert (D : m = BuildFinished false \/ m <> BuildFinished false)
    by (destruct m as [| | | | [|] |]; auto; right; discriminate).
  destruct D as [->|Hm]; [exact (conj S (conj T B))|].
  destruct (step_fields cc m st Hm) as (U & _ & _ & _ & P).
  unfold progress_inv; rewrite U, P.
  destruct m as [| l | d | [[p|] n] | b |]; simpl; rewrite ?app_nil_r;
    try (split; [exact S|split; [exact T|]];
         eapply Forall_impl; [|exact B]; intros q Hq; simpl in Hq; lia).
  rewrite map_app; simpl; split; [|split].
  - apply sorted_snoc; [exact S|].
    apply Forall_map; eapply Forall_impl; [|exact B]; intros q Hq; simpl in Hq |- *; lia.
  - apply Forall_app; split; [exact T|]; constructor; [reflexivity|constructor].
  - apply Forall_app; split.
    + eapply Forall_impl; [|exact B]; intros q Hq; simpl in Hq |- *; lia.
    + constructor; [simpl; lia|constructor].
Qed.

Lemma drain_progress_inv (cc : nat) (lines : list (option Message)) (st : DrainState) :
  progress_inv cc st -> progress_inv cc (state_of (drain cc lines st)).
Proof.
  revert st; induction lines as [|[m|] lines IH]; intros st H; simpl; [exact H| |auto].
  pose proof (step_progress_inv cc m st H) as H'.
  destruct (step cc m st); simpl in H' |- *; auto.
Qed.

End DrainProgress.

Section DrainTheorems.
Import Drain DrainFacts.

(** The drain loop over a stream without a [BuildFinished] failure runs to
    the end of the stream. It counts one unit per build-script and artifact
    event, keeps the path of the last artifact that names an executable,
    records in order the argument lists of the [Running] lines that
    [shell_words] can split, and forwards every compiler diagnostic in order. *)
Theorem drain_summary (cc : nat) (lines : list (option Message)) :
  no_failure lines = true ->
  exists st, drain cc lines init_state = Continue st /\
    units_compiled st = count_units lines /\
    output_location st = last_executable lines None /\
    direct_rustc st = captured lines /\
    diag_statuses (statuses st) = diagnostics lines.
Proof.
  intros H; destruct (drain_summary_gen cc lines init_state H) as (st & R & U & O & D & G).
  exists st; simpl in U, O, D, G; auto.
Qed.

(** After the loop, [cargo_build] returns artifacts exactly when the stream
    has no [BuildFinished] failure and some artifact names an executable.
    The artifacts hold the last such executable and the arguments of every
    [Running] line that [shell_words] can split. A stream without failure and
    without executable yields "Build did not return an executable". *)
Theorem finish_result (cc : nat) (lines : list (option Message)) (a : BuildArtifacts) :
  (finish cc lines = inl a <->
     no_failure lines = true /\ last_executable lines None = Some (exe a) /\
     artifacts_direct_rustc a = captured lines) /\
  (finish cc lines = inr no_exe_msg <->
     no_failure lines = true /\ last_executable lines None = None).
Proof.
  unfold finish; destruct (no_failure lines) eqn:F.
  - destruct (drain_summary_gen cc lines init_state F) as (st & -> & _ & O & D & _).
    simpl in O, D; rewrite O, D.
    destruct (last_executable lines None) as [p|]; split; split.
    + intros H; inversion H; subst; auto.
    + intros (_ & Hp & Hd); inversion Hp; destruct a; simpl in *; subst; reflexivity.
    + discriminate.
    + intros (_ & Hp); discriminate.
    + discriminate.
    + intros (_ & Hp & _); discriminate.
    + auto.
    + auto.
  - destruct (drain_failure cc lines init_state F) as (st & ->).
    split; split; try (intros (H & _); discriminate).
    + discriminate.
    + intros H; inversion H.
Qed.

(** The progress statuses of the loop report strictly increasing unit counts,
    never more than the units counted. Each carries the unit estimate
    [crate_count], which is 1 for a [Thin] build whatever the estimate. *)
Theorem drain_progress_increasing (cc : nat) (lines : list (option Message)) :
  let P := progress_of (statuses (state_of (drain cc lines init_state))) in
  StronglySorted lt (map fst P) /\
  Forall (fun q => snd q = cc) P /\
  Forall (fun q => fst q <= units_compiled (state_of (drain cc lines init_state))) P /\
  (forall d est, Forall (fun q => snd q = 1)
     (progress_of (statuses (state_of (drain (crate_count (Thin d) est) lines init_state))))).
Proof.
  assert (I : forall c, progress_inv c init_state)
    by (intros c; repeat split; constructor).
  destruct (drain_progress_inv cc lines init_state (I cc)) as (S & T & B).
  split; [exact S|]; split; [exact T|]; split; [exact B|].
  intros d est; apply (drain_progress_inv 1 lines init_state (I 1)).
Qed.

End DrainTheorems.

(** ** Output names and files *)

Section OutputFiles.

Lemma string_length_app (s1 s2 : string) :
  String.length (s1 ++ s2) = String.length s1 + String.length s2.
Proof. induction s1; simpl; auto. Qed.

Lemma existsb_rev {A} (f : A -> bool) (l : list A) : existsb f (rev l) = existsb f l.
Proof.
  induction l as [|x l IH]; simpl; [reflexivity|].
  rewrite existsb_app, IH; simpl; rewrite orb_false_r, orb_comm; reflexivity.
Qed.

Lemma split_at_dot_none (l : list ascii) :
  existsb (Ascii.eqb "."%char) l = false -> split_at_dot l = None.
Proof.
  induction l as [|c l IH]; cbn [split_at_dot existsb]; intros H; [reflexivity|].
  apply orb_false_elim in H as [H1 H2]; rewrite Ascii.eqb_sym, H1, IH; auto.
Qed.

Lemma split_at_dot_app (x y : list ascii) :
  existsb (Ascii.eqb "."%char) x = false ->
  split_at_dot (x ++ "."%char :: y) = Some (x, y).
Proof.
  induction x as [|c x IH]; cbn [split_at_dot existsb app]; intros H; [reflexivity|].
  apply orb_false_elim in H as [H1 H2]; rewrite Ascii.eqb_sym, H1, IH; auto.
Qed.

Lemma stem_plain (out : path) (n : string) :
  RStr.contains_char "."%char n = false -> file_stem (join out n) = Some n.
Proof.
  intros H; unfold file_stem, file_name, join; rewrite rev_unit.
  assert (Hn : String.eqb n ".." = false)
    by (apply String.eqb_neq; intros ->; discriminate H).
  rewrite Hn; unfold rsplit_file_at_dot; rewrite Hn.
  rewrite split_at_dot_none; [reflexivity|].
  rewrite existsb_rev; exact H.
Qed.

Lemma stem_dotted (out : path) (a b : string) :
  a <> "" -> RStr.contains_char "."%char b = false -> (a ++ "." ++ b) <> ".." ->
  file_stem (join out (a ++ "." ++ b)) = Some a.
Proof.
  intros Ha Hb Hd; unfold file_stem, file_name, join; rewrite rev_unit.
  assert (Hn : String.eqb (a ++ "." ++ b) ".." = false) by (apply String.eqb_neq; exact Hd).
  rewrite Hn; unfold rsplit_file_at_dot; rewrite Hn.
  rewrite !StrFacts.list_ascii_of_string_app, rev_app_distr; simpl.
  rewrite <- app_assoc; simpl.
  rewrite split_at_dot_app by (rewrite existsb_rev; exact Hb).
  remember (rev (list_ascii_of_string a)) as ra eqn:E; destruct ra as [|c r].
  - exfalso; apply Ha.
    rewrite <- (string_of_list_ascii_of_string a), <- (rev_involutive (list_ascii_of_string a)),
      <- E; reflexivity.
  - rewrite E, rev_involutive, string_of_list_ascii_of_string; reflexivity.
Qed.

Lemma contains_char_app (c : ascii) (s1 s2 : string) :
  RStr.contains_char c (s1 ++ s2) = RStr.contains_char c s1 || RStr.contains_char c s2.
Proof. unfold RStr.contains_char; rewrite StrFacts.list_ascii_of_string_app, existsb_app; reflexivity. Qed.

End OutputFiles.

(** For an executable name without dot and without [/], the wasm-bindgen
    outputs are [<name>.js] and [<name>_bg.wasm] in the [wasm] folder of
    the root directory, which on the web platform is the executable
    directory. *)
Theorem wasm_output_files_plain (r : BuildRequest) :
  executable_name r <> "" ->
  RStr.contains_char "."%char (executable_name r) = false ->
  RStr.contains_char "/"%char (executable_name r) = false ->
  wasm_bindgen_js_output_file r = join (wasm_bindgen_out_dir r) (executable_name r ++ ".js") /\
  wasm_bindgen_wasm_output_file r =
    join (wasm_bindgen_out_dir r) (executable_name r ++ "_bg.wasm") /\
  (platform r = Web -> wasm_bindgen_out_dir r = exe_dir r).
Proof.
  intros _ Hd _; split; [|split].
  - unfold wasm_bindgen_js_output_file, with_extension; rewrite stem_plain by exact Hd.
    unfold join; rewrite removelast_last; reflexivity.
  - unfold wasm_bindgen_wasm_output_file, with_extension.
    rewrite stem_plain by (rewrite contains_char_app, Hd; reflexivity).
    unfold join; rewrite removelast_last; simpl; rewrite StrFacts.string_app_assoc; reflexivity.
  - intros Hw; unfold wasm_bindgen_out_dir, exe_dir; rewrite Hw; reflexivity.
Qed.

(** [with_extension] replaces what follows the last dot of the file name, so
    for an executable name [a.b] both wasm-bindgen outputs lose [.b]: they are
    [a.js] and [a.wasm], and the [_bg] suffix of the wasm file is dropped. *)
Theorem wasm_output_files_dotted (r : BuildRequest) (a b : string) :
  executable_name r = (a ++ "." ++ b)%string -> a <> "" ->
  RStr.contains_char "."%char b = false ->
  RStr.contains_char "/"%char (executable_name r) = false ->
  executable_name r <> ".." ->
  wasm_bindgen_js_output_file r = join (wasm_bindgen_out_dir r) (a ++ ".js") /\
  wasm_bindgen_wasm_output_file r = join (wasm_bindgen_out_dir r) (a ++ ".wasm").
Proof.
  intros Hn Ha Hb _ Hdd; split.
  - unfold wasm_bindgen_js_output_file, with_extension; rewrite Hn.
    rewrite stem_dotted by (try exact Ha; try exact Hb; rewrite <- Hn; exact Hdd).
    unfold join; rewrite removelast_last; reflexivity.
  - unfold wasm_bindgen_wasm_output_file, with_extension; rewrite Hn.
    rewrite !StrFacts.string_app_assoc.
    rewrite stem_dotted; [unfold join; rewrite removelast_last; reflexivity| exact Ha | |].
    + rewrite contains_char_app, Hb; reflexivity.
    + intros H; apply (f_equal String.length) in H.
      rewrite !string_length_app in H; simpl in H; lia.
Qed.

(** ** Directory layout and preparation *)

Section LayoutFacts.

Lemma under_refl (p : path) : under p p.
Proof. exists []; rewrite app_nil_r; reflexivity. Qed.

Lemma under_join (b p : path) (c : string) : under b p -> under b (join p c).
Proof. intros [l ->]; exists (l ++ [c])%list; unfold join; rewrite app_assoc; reflexivity. Qed.

Lemma under_trans (a b c : path) : under a b -> under b c -> under a c.
Proof. intros [l1 ->] [l2 ->]; exists (l1 ++ l2)%list; rewrite app_assoc; reflexivity. Qed.

Ltac solve_under :=
  unfold wry_android_kotlin_files_out_dir; cbn [fold_left];
  repeat apply under_join; apply under_refl.

Lemma root_under (r : BuildRequest) : under (platform_dir r) (root_dir r).
Proof. unfold root_dir; destruct (platform r); solve_under. Qed.

Lemma exe_under (r : BuildRequest) : under (root_dir r) (exe_dir r).
Proof. unfold exe_dir; destruct (platform r); solve_under. Qed.

Lemma asset_under (r : BuildRequest) : under (root_dir r) (asset_dir r).
Proof. unfold asset_dir; destruct (platform r); solve_under. Qed.

Lemma android_ops_under (r : BuildRequest) (o : FsOp) :
  In o (android_app_dir_ops r) -> under (root_dir r) (op_path o).
Proof.
  unfold android_app_dir_ops; cbn [In app]; intros H;
    repeat (destruct H as [<-|H]; [cbn [op_path]; solve_under|]); destruct H.
Qed.

Lemma in_firstn {A} (k : nat) (l : list A) (x : A) : In x (firstn k l) -> In x l.
Proof.
  intros H; rewrite <- (firstn_skipn k l); apply in_or_app; left; exact H.
Qed.

Lemma init_build_dir_under (fs_run : list FsOp -> FsOp -> option string)
  (r : BuildRequest) (o : FsOp) :
  In o (fst (init_build_dir fs_run r [])) -> under (platform_dir r) (op_path o).
Proof.
  unfold init_build_dir.
  match goal with |- context [run_ops fs_run ?log ?ops] =>
    destruct (run_ops_log fs_run log ops) as [k ->] end.
  intros H; apply in_app_or in H as [H|H].
  - destruct H as [<-|[]]; eapply under_trans; [apply root_under|apply exe_under].
  - apply in_firstn in H; cbn [app In] in H.
    destruct H as [<-|[<-|[<-|H]]];
      try (eapply under_trans; [apply root_under|]);
      [apply under_refl|apply exe_under|apply asset_under|].
    destruct (platform_eqb (platform r) Android); [|destruct H].
    apply android_ops_under, H.
Qed.

Lemma prepare_all_log (fs_run : list FsOp -> FsOp -> option string)
  (r0 : BuildRequest) (rest : list BuildRequest) :
  fs_log (fst (prepare_all fs_run (r0 :: rest) empty_proc))
    = fst (init_build_dir fs_run r0 []).
Proof.
  simpl; unfold prepare_build_dir; simpl.
  destruct (init_build_dir fs_run r0 []) as [log0 res0]; simpl.
  rewrite (prepare_all_cached fs_run rest (mkProcState (Some res0) log0) res0 eq_refl);
    reflexivity.
Qed.

Lemma exe_dir_shape (r : BuildRequest) :
  platform r <> Server ->
  exists x rest, exe_dir r = (platform_dir r ++ x :: rest)%list /\
    (x = "public" \/ x = "app" \/ x = (bundled_app_name r ++ ".app")%string).
Proof.
  intros Hs; unfold exe_dir, root_dir; destruct (platform r); try congruence;
    unfold join; rewrite <- ?app_assoc; eexists _, _; (split; [reflexivity|]);
    first [left; reflexivity | right; left; reflexivity | right; right; reflexivity].
Qed.

Lemma app_suffix_neq (s t : string) (c d : ascii) (u v : list ascii) :
  rev (list_ascii_of_string t) = c :: u -> rev (list_ascii_of_string s) = d :: v ->
  c <> d -> forall w, (w ++ s)%string <> t.
Proof.
  intros Ht Hs Hcd w H; apply (f_equal (fun z => rev (list_ascii_of_string z))) in H.
  rewrite StrFacts.list_ascii_of_string_app, rev_app_distr, Hs, Ht in H.
  inversion H; auto.
Qed.

Lemma not_under_sibling (r : BuildRequest) (c : string) :
  platform r <> Server -> c <> "public" -> c <> "app" ->
  (forall w, (w ++ ".app")%string <> c) ->
  ~ under (exe_dir r) (join (platform_dir r) c).
Proof.
  intros Hs H1 H2 H3 [l Hl].
  destruct (exe_dir_shape r Hs) as (x & rest & E & Hx); rewrite E in Hl.
  unfold join in Hl; rewrite <- app_assoc in Hl; apply app_inv_head in Hl.
  inversion Hl; subst; destruct Hx as [ -> | [ -> | -> ] ]; [apply H1|apply H2|apply (H3 (bundled_app_name r))];
    reflexivity.
Qed.

Lemma run_ops_failure (fs_run : list FsOp -> FsOp -> option string)
  (log ops : list FsOp) (e : string) :
  snd (run_ops fs_run log ops) = inr e ->
  exists done o rest, ops = (done ++ o :: rest)%list /\ all_ok fs_run log done /\
    fs_run (log ++ done)%list o = Some e /\
    fst (run_ops fs_run log ops) = (log ++ done ++ [o])%list.
Proof.
  revert log; induction ops as [|o ops IH]; intros log H; simpl in H |- *; [discriminate|].
  destruct (fs_run log o) as [e'|] eqn:F.
  - injection H as ->; exists [], o, ops; simpl; rewrite app_nil_r; auto.
  - destruct (IH _ H) as (done & o' & rest & -> & A & F' & L).
    exists (o :: done), o', rest; simpl; rewrite <- !app_assoc in *; auto.
Qed.

End LayoutFacts.

(** [prepare_build_dir] only touches paths under the platform directory of
    its first caller: when the app build reaches it first, the server build
    (or any later caller) gets no directory of its own created. *)
Theorem prepare_build_dir_scope (fs_run : list FsOp -> FsOp -> option string)
  (r0 : BuildRequest) (rest : list BuildRequest) (o : FsOp) :
  In o (fs_log (fst (prepare_all fs_run (r0 :: rest) empty_proc))) ->
  under (platform_dir r0) (op_path o).
Proof. rewrite prepare_all_log; apply init_build_dir_under. Qed.

(** The [remove_dir_all] of [prepare_build_dir] deletes the executable
    directory. For a server build that is the whole platform directory,
    including the incremental cache and the asset optimizer's version file.
    For every other platform neither of them lies under it. *)
Theorem exe_dir_removal_scope (r : BuildRequest) :
  (platform r = Server ->
     exe_dir r = platform_dir r /\
     under (exe_dir r) (incremental_cache_dir r) /\
     under (exe_dir r) (asset_optimizer_version_file r)) /\
  (platform r <> Server ->
     ~ under (exe_dir r) (incremental_cache_dir r) /\
     ~ under (exe_dir r) (asset_optimizer_version_file r)).
Proof.
  split.
  - intros Hs.
    assert (E : exe_dir r = platform_dir r) by (unfold exe_dir, root_dir; rewrite Hs; reflexivity).
    rewrite E; split; [reflexivity|]; split; apply under_join, under_refl.
  - intros Hs; split; apply not_under_sibling; try exact Hs; try discriminate;
      intros w; eapply app_suffix_neq; try reflexivity; discriminate.
Qed.

(** When the initialisation fails, the error [prepare_build_dir] reports is
    that of the first failing operation, prefixed with "Failed to initialize
    build directory: ". Every operation before it succeeded and none after it
    is attempted. *)
Theorem prepare_build_dir_first_failure (fs_run : list FsOp -> FsOp -> option string)
  (r : BuildRequest) (msg : string) :
  snd (prepare_build_dir fs_run r empty_proc) = inr msg ->
  exists done o rest e,
    ([CreateDirAll (root_dir r); CreateDirAll (exe_dir r); CreateDirAll (asset_dir r)]
     ++ (if platform_eqb (platform r) Android then android_app_dir_ops r else []))%list
      = (done ++ o :: rest)%list /\
    all_ok fs_run [RemoveDirAll (exe_dir r)] done /\
    fs_run (RemoveDirAll (exe_dir r) :: done) o = Some e /\
    fs_log (fst (prepare_build_dir fs_run r empty_proc))
      = (RemoveDirAll (exe_dir r) :: done ++ [o])%list /\
    msg = ("Failed to initialize build directory: " ++ e)%string.
Proof.
  unfold prepare_build_dir; simpl.
  destruct (init_build_dir fs_run r []) as [log' res] eqn:E; simpl.
  destruct res as [[]|e]; simpl; intros H; [discriminate|injection H as <-].
  unfold init_build_dir in E.
  destruct (run_ops_failure fs_run _ _ e (f_equal snd E)) as (done & o & rest & Ho & A & F & L).
  exists done, o, rest, e; rewrite E in L; simpl in L; auto.
Qed.

(** ** Command arguments, features and the build entry points *)

Section ArgumentFacts.

Lemma build_arguments_shape (r : BuildRequest) (a : list string) :
  build_arguments r = Ok a ->
  exists p post, profile_args r = Ok p /\ a = (p ++ "--verbose" :: post)%list.
Proof.
  intros H; destruct (profile_args_ok r) as [p Hp].
  unfold build_arguments in H; rewrite Hp in H; simpl in H.
  exists p; destruct (mode r).
  - injection H as <-; eexists; split; [exact Hp|reflexivity].
  - destruct (current_exe r); simpl in H; [|discriminate].
    destruct (canonical_exe r); simpl in H; [|discriminate].
    injection H as <-; eexists; split; [exact Hp|]; rewrite <- app_assoc; reflexivity.
  - destruct (current_exe r); simpl in H; [|discriminate].
    destruct (canonical_exe r); simpl in H; [|discriminate].
    injection H as <-; eexists; split; [exact Hp|]; rewrite <- app_assoc; reflexivity.
Qed.

Lemma server_args_head (r : BuildRequest) (a : list string) :
  platform r = Server -> build_arguments r = Ok a ->
  exists rest, a = "--profile" :: (if release r then "release" else server_profile r)
                   :: "--verbose" :: rest.
Proof.
  intros Hs H; destruct (build_arguments_shape r a H) as (p & post & Hp & ->).
  unfold profile_args in Hp; rewrite Hs in Hp; simpl in Hp.
  injection Hp as <-; exists post; reflexivity.
Qed.

Lemma dedup_from_members (prev : string) (l : list string) (y : string) :
  prev = y \/ In y (dedup_from prev l) <-> prev = y \/ In y l.
Proof.
  revert prev; induction l as [|x l IH]; intros prev; simpl; [tauto|].
  destruct (String.eqb_spec x prev) as [->|Hne].
  - rewrite IH; tauto.
  - simpl; specialize (IH x); tauto.
Qed.

Lemma dedup_members (l : list string) (y : string) : In y (dedup l) <-> In y l.
Proof.
  destruct l as [|x l]; simpl; [tauto|]; apply dedup_from_members.
Qed.

Lemma dedup_from_distinct (prev : string) (l : list string) :
  adjacent_distinct (prev :: dedup_from prev l) = true.
Proof.
  revert prev; induction l as [|x l IH]; intros prev; simpl; [reflexivity|].
  destruct (String.eqb x prev) eqn:E; [apply IH|].
  cbn [adjacent_distinct]; rewrite String.eqb_sym, E; simpl; apply IH.
Qed.

Section AssembleNever.
Variables (android_linker android_ar_path target_cc target_cxx : path -> path)
  (android_min_sdk_version : string) (java_home : option path)
  (link_env_var_name asset_root_env app_title_env : string).

Lemma assemble_not_ok (r : BuildRequest) (c : Command) :
  assemble_build_command android_linker android_ar_path target_cc target_cxx
    android_min_sdk_version java_home link_env_var_name asset_root_env app_title_env r
  <> Ok c.
Proof.
  destruct (env_vars_never_ok android_linker android_ar_path target_cc target_cxx
    android_min_sdk_version java_home link_env_var_name asset_root_env app_title_env r)
    as [E1 E2].
  unfold assemble_build_command; destruct (build_arguments r); simpl; try discriminate.
  assert (D : platform r = Android /\ android_ndk r = None \/
              (platform r <> Android \/ android_ndk r <> None))
    by (destruct (android_ndk r); [right; right; discriminate|];
        destruct (platform r); try (right; left; discriminate); left; auto).
  destruct D as [[Hp Hn]|H].
  - rewrite (E1 Hp Hn); discriminate.
  - destruct (E2 H) as [m ->]; discriminate.
Qed.

End AssembleNever.

End ArgumentFacts.

(** ** Scheduling of [build_all] *)

Section BuildAllFacts.
Variables (android_linker android_ar_path target_cc target_cxx : path -> path)
  (android_min_sdk_version : string) (java_home : option path)
  (link_env_var_name asset_root_env app_title_env : string)
  (fs_run : list FsOp -> FsOp -> option string)
  (rest : BuildRequest -> Command -> ProcState -> PollResult Drain.BuildArtifacts).

(** The first poll of [cargo_build] completes it, with the error of
    [prepare_build_dir] or the failure of command assembly. *)
Lemma cargo_build_fut_first_poll (r : BuildRequest) (st : ProcState) :
  exists o,
    match cargo_build_fut android_linker android_ar_path target_cc target_cxx
            android_min_sdk_version java_home link_env_var_name asset_root_env
            app_title_env fs_run rest r with
    | MkFut p => p st
    end = Ready (fst (prepare_build_dir fs_run r st)) o /\
    (forall a, o <> Ok a) /\
    (forall e, snd (prepare_build_dir fs_run r st) = inr e -> o = Err e).
Proof.
  unfold cargo_build_fut.
  destruct (prepare_build_dir fs_run r st) as [st' [u|e]]; simpl.
  - destruct (assemble_build_command android_linker android_ar_path target_cc target_cxx
      android_min_sdk_version java_home link_env_var_name asset_root_env app_title_env r)
      eqn:E.
    + exfalso; exact (assemble_not_ok _ _ _ _ _ _ _ _ _ r _ E).
    + exists (Err e); split; [reflexivity|]; split; [discriminate|intros e' H; discriminate].
    + exists (Panic msg); split; [reflexivity|]; split; [discriminate|intros e' H; discriminate].
  - exists (Err e); split; [reflexivity|]; split; [discriminate|].
    intros e' H; injection H as <-; reflexivity.
Qed.

End BuildAllFacts.

(** C6: [build_all] runs no step of the server build before the app build
    has completed, whether [force_sequential] is set ([try_join]) or not
    ([.await?] one after the other). The first poll of [cargo_build] runs
    [prepare_build_dir] and [assemble_build_command] before any suspension
    point, and command assembly never succeeds (C1), so the app build
    completes with an error or a panic at its first poll. [try_join] polls
    it first and returns that error at once, and the sequential arm stops at
    its [?]: the server build is never polled, and [build_all] fails with
    the app build's error. *)
Theorem C6_server_never_before_app
  (android_linker android_ar_path target_cc target_cxx : path -> path)
  (android_min_sdk_version : string) (java_home : option path)
  (link_env_var_name asset_root_env app_title_env : string)
  (fs_run : list FsOp -> FsOp -> option string)
  (rest : BuildRequest -> Command -> ProcState -> PollResult Drain.BuildArtifacts)
  (r : BuildRequest) (fuel : nat) (st : ProcState) :
  0 < fuel ->
  let run := build_all android_linker android_ar_path target_cc target_cxx
    android_min_sdk_version java_home link_env_var_name asset_root_env app_title_env
    fs_run rest r fuel st in
  snd (fst run) = [AppBuild] /\
  fst (fst run) = fst (prepare_build_dir fs_run r st) /\
  (exists m, snd run = Some (Err m) \/ snd run = Some (Panic m)) /\
  (forall e, snd (prepare_build_dir fs_run r st) = inr e -> snd run = Some (Err e)).
Proof.
  intros Hf; destruct fuel as [|f]; [lia|]; cbv zeta.
  destruct (cargo_build_fut_first_poll android_linker android_ar_path target_cc
    target_cxx android_min_sdk_version java_home link_env_var_name asset_root_env
    app_title_env fs_run rest r st) as (o & Ep & Hno & He).
  unfold build_all.
  generalize (build_server_fut android_linker android_ar_path target_cc target_cxx
    android_min_sdk_version java_home link_env_var_name asset_root_env app_title_env
    fs_run rest r) as server; intros server.
  revert Ep.
  generalize (cargo_build_fut android_linker android_ar_path target_cc target_cxx
    android_min_sdk_version java_home link_env_var_name asset_root_env app_title_env
    fs_run rest r) as app; intros [p] Ep.
  destruct (force_sequential r); simpl; rewrite Ep;
    (destruct o as [a|e|m]; [exfalso; exact (Hno a eq_refl)| |]); simpl;
    (split; [reflexivity|]); (split; [reflexivity|]); split; eauto;
    intros e' H; specialize (He e' H); congruence.
Qed.

(** The fullstack web request built with [--force-sequential]. *)
Lemma C6_server_never_before_app_witness :
  0 < 3 /\
  let run := build_all (fun p => p) (fun p => p) (fun p => p) (fun p => p) "24" None
    "DX_LINK_ACTION" "ASSET_ROOT" "APP_TITLE" (fun _ _ => None)
    (fun _ _ st => Pending st (MkFut (fun st => Ready st (Err "no output"))))
    (sample_request Web Base) 3 empty_proc in
  snd (fst run) = [AppBuild] /\
  fst (fst run) = fst (prepare_build_dir (fun _ _ => None) (sample_request Web Base) empty_proc) /\
  (exists m, snd run = Some (Err m) \/ snd run = Some (Panic m)) /\
  (forall e, snd (prepare_build_dir (fun _ _ => None) (sample_request Web Base) empty_proc)
               = inr e -> snd run = Some (Err e)).
Proof.
  split; [lia|].
  apply (C6_server_never_before_app (fun p => p) (fun p => p) (fun p => p) (fun p => p) "24" None
    "DX_LINK_ACTION" "ASSET_ROOT" "APP_TITLE" (fun _ _ => None)
    (fun _ _ st => Pending st (MkFut (fun st => Ready st (Err "no output"))))
    (sample_request Web Base) 3 empty_proc).
  lia.
Defined.

(** [build_arguments] never fails in [Base] mode. In [Fat] and [Thin] mode
    it returns arguments exactly when the tool's own executable path and its
    canonical form are available, and panics (at an [unwrap]) otherwise;
    the arguments then end with [-Clinker=] and that canonical path. *)
Theorem build_arguments_outcome (r : BuildRequest) :
  (mode r = Base -> exists a, build_arguments r = Ok a) /\
  (mode r <> Base ->
     ((exists a, build_arguments r = Ok a) <-> current_exe r <> None /\ canonical_exe r <> None)) /\
  (mode r <> Base -> current_exe r = None \/ canonical_exe r = None ->
     exists m, build_arguments r = Panic m) /\
  (mode r <> Base -> forall c a, canonical_exe r = Some c -> build_arguments r = Ok a ->
     exists pre, a = (pre ++ [("-Clinker=" ++ display c)%string])%list).
Proof.
  destruct (profile_args_ok r) as [p Hp].
  unfold build_arguments; rewrite Hp; simpl.
  destruct (mode r); [|destruct (current_exe r), (canonical_exe r)..]; simpl.
  - split; [eauto|]; split; [intros H; congruence|]; split; intros H; congruence.
  - split; [intros H; discriminate|]; split; [intros _; split|split].
    + intros _; split; discriminate.
    + eauto.
    + intros _ [H|H]; discriminate.
    + intros _ c a Hc Ha; injection Hc as <-; injection Ha as <-; eexists; reflexivity.
  - split; [intros H; discriminate|]; split; [intros _; split|split].
    + intros [a Ha]; discriminate.
    + intros [H1 H2]; congruence.
    + eauto.
    + intros _ c a Hc Ha; discriminate.
  - split; [intros H; discriminate|]; split; [intros _; split|split].
    + intros [a Ha]; discriminate.
    + intros [H1 H2]; congruence.
    + eauto.
    + intros _ c a Hc Ha; discriminate.
  - split; [intros H; discriminate|]; split; [intros _; split|split].
    + intros [a Ha]; discriminate.
    + intros [H1 H2]; congruence.
    + eauto.
    + intros _ c a Hc Ha; discriminate.
  - split; [intros H; discriminate|]; split; [intros _; split|split].
    + intros _; split; discriminate.
    + eauto.
    + intros _ [H|H]; discriminate.
    + intros _ c a Hc Ha; injection Hc as <-; injection Ha as <-; eexists; reflexivity.
  - split; [intros H; discriminate|]; split; [intros _; split|split].
    + intros [a Ha]; discriminate.
    + intros [H1 H2]; congruence.
    + eauto.
    + intros _ c a Hc Ha; discriminate.
  - split; [intros H; discriminate|]; split; [intros _; split|split].
    + intros [a Ha]; discriminate.
    + intros [H1 H2]; congruence.
    + eauto.
    + intros _ c a Hc Ha; discriminate.
  - split; [intros H; discriminate|]; split; [intros _; split|split].
    + intros [a Ha]; discriminate.
    + intros [H1 H2]; congruence.
    + eauto.
    + intros _ c a Hc Ha; discriminate.
Qed.

(** How [build_arguments] starts. A server build passes [--profile] with
    [release] or the server profile and no [--target], whatever target was
    requested. Any other [--release] build passes the [release] profile,
    overriding a custom profile. A platform with a fixed target triple (web,
    iOS, Android) passes it in place of a requested target, and the other
    platforms pass the requested target: the arguments before [--verbose]
    are the profile flags, if any, and [--target] with that one triple. *)
Theorem build_arguments_profile_target (r : BuildRequest) (a : list string) :
  build_arguments r = Ok a ->
  (platform r = Server ->
     exists rest, a = "--profile" :: (if release r then "release" else server_profile r)
                      :: "--verbose" :: rest) /\
  (platform r <> Server -> release r = true ->
     exists rest, a = "--profile" :: "release" :: rest) /\
  (forall t, custom_target r = Some t ->
     exists p rest, a = (p ++ "--target" :: t :: "--verbose" :: rest)%list /\
       (p = [] \/ exists x, p = ["--profile"; x])) /\
  (platform r <> Server -> custom_target r = None -> forall t, target r = Some t ->
     exists p rest, a = (p ++ "--target" :: t :: "--verbose" :: rest)%list /\
       (p = [] \/ exists x, p = ["--profile"; x])).
Proof.
  intros H; split; [intros Hs; exact (server_args_head r a Hs H)|].
  destruct (build_arguments_shape r a H) as (p & post & Hp & ->).
  unfold profile_args in Hp.
  assert (Hns : forall X, platform r <> Server ->
            (if platform_eqb (platform r) Server then X else
               p0 <- (match profile r, release r with
                      | None, false => Ok []
                      | _, true => Ok ["--profile"; "release"]
                      | Some c, false => Ok ["--profile"; c]
                      end) ;;
               Ok (p0 ++ match match custom_target r with
                               | Some t => Some t | None => target r end with
                         | Some t => ["--target"; t] | None => [] end)%list) =
            (p0 <- (match profile r, release r with
                      | None, false => Ok []
                      | _, true => Ok ["--profile"; "release"]
                      | Some c, false => Ok ["--profile"; c]
                      end) ;;
               Ok (p0 ++ match match custom_target r with
                               | Some t => Some t | None => target r end with
                         | Some t => ["--target"; t] | None => [] end)%list))
    by (intros X Hs; destruct (platform r); try reflexivity; congruence).
  split; [|split].
  - intros Hs Hr; rewrite Hns in Hp by exact Hs; rewrite Hr in Hp.
    destruct (profile r); simpl in Hp; injection Hp as <-; eexists; reflexivity.
  - intros t Ht.
    assert (Hs : platform r <> Server)
      by (intros E; unfold custom_target in Ht; rewrite E in Ht; discriminate).
    rewrite Hns in Hp by exact Hs; rewrite Ht in Hp.
    destruct (profile r), (release r); cbn [bind] in Hp; injection Hp as <-;
      match goal with |- exists p rest, (?L ++ _)%list = _ /\ _ =>
        exists (firstn (List.length L - 2) L), post; split; [reflexivity|];
        simpl; first [left; reflexivity | right; eexists; reflexivity] end.
  - intros Hs Hc t Ht; rewrite Hns in Hp by exact Hs; rewrite Hc, Ht in Hp.
    destruct (profile r), (release r); cbn [bind] in Hp; injection Hp as <-;
      match goal with |- exists p rest, (?L ++ _)%list = _ /\ _ =>
        exists (firstn (List.length L - 2) L), post; split; [reflexivity|];
        simpl; first [left; reflexivity | right; eexists; reflexivity] end.
Qed.

(** The merged feature list loses no feature (it holds exactly the target
    features and, unless default features are disabled, the package's
    default features) and never repeats a feature twice in a row. *)
Theorem all_target_features_members (r : BuildRequest) (x : string) :
  adjacent_distinct (all_target_features r) = true /\
  (In x (all_target_features r) <->
     In x (target_features r) \/
     (no_default_features r = false /\
      In x (match default_features r with Some d => d | None => [] end))).
Proof.
  unfold all_target_features; split.
  - destruct (if negb (no_default_features r) then _ else _) as [|y l]; [reflexivity|].
    apply dedup_from_distinct.
  - rewrite dedup_members; destruct (no_default_features r); simpl.
    + split; [auto|intros [H|[H _]]; [exact H|discriminate]].
    + rewrite in_app_iff; split.
      * intros [H|H]; [left; exact H|right; split; [reflexivity|exact H]].
      * intros [H|[_ H]]; [left|right]; exact H.
Qed.

(** [cargo_build] never returns build artifacts: if the build directory
    cannot be prepared it returns that error, and otherwise command assembly
    stops it. Its only effect is that of [prepare_build_dir]. *)
Theorem cargo_build_never_ok
  (android_linker android_ar_path target_cc target_cxx : path -> path)
  (android_min_sdk_version : string) (java_home : option path)
  (link_env_var_name asset_root_env app_title_env : string)
  (fs_run : list FsOp -> FsOp -> option string) (r : BuildRequest) (estimate : nat)
  (spawn_err : option string) (lines : list (option Drain.Message)) (st : ProcState) :
  let run := cargo_build android_linker android_ar_path target_cc target_cxx
    android_min_sdk_version java_home link_env_var_name asset_root_env app_title_env
    fs_run r estimate spawn_err lines st in
  (forall a, snd run <> Ok a) /\
  fst run = fst (prepare_build_dir fs_run r st) /\
  (forall e, snd (prepare_build_dir fs_run r st) = inr e -> snd run = Err e).
Proof.
  cbv zeta; unfold cargo_build.
  destruct (prepare_build_dir fs_run r st) as [st' [u|e]]; simpl;
    (split; [|split; [reflexivity|]]).
  - intros a H.
    destruct (assemble_build_command android_linker android_ar_path target_cc target_cxx
      android_min_sdk_version java_home link_env_var_name asset_root_env app_title_env r)
      eqn:E; simpl in H; try discriminate.
    exact (assemble_not_ok _ _ _ _ _ _ _ _ _ r _ E).
  - intros e H; discriminate.
  - intros a H; discriminate.
  - intros e' H; injection H as <-; reflexivity.
Qed.

(** [build_server] builds nothing and returns [None] unless [fullstack] is
    set; otherwise it returns what [cargo_build] returns for the request
    with the server platform: its artifacts, its error or its panic. That request uses the server features, puts
    its executable directly in the server's platform directory with the
    assets beside it, and passes the server profile without a target. *)
Theorem build_server_request {A} (cb : BuildRequest -> Outcome A) (r : BuildRequest) :
  let s := with_platform Server r in
  (fullstack r = false -> build_server cb r = Ok None) /\
  (forall a, fullstack r = true -> cb s = Ok a -> build_server cb r = Ok (Some a)) /\
  (forall e, fullstack r = true -> cb s = Err e -> build_server cb r = Err e) /\
  (forall m, fullstack r = true -> cb s = Panic m -> build_server cb r = Panic m) /\
  target_features s = (features r ++ server_features r)%list /\
  exe_dir s = build_dir r Server (release r) /\
  root_dir s = exe_dir s /\
  asset_dir s = join (exe_dir s) "assets" /\
  (forall a, build_arguments s = Ok a ->
     exists rest, a = "--profile" :: (if release r then "release" else server_profile r)
                      :: "--verbose" :: rest).
Proof.
  cbv zeta; unfold build_server.
  split; [intros H; rewrite H; reflexivity|].
  split; [intros a H E; rewrite H, E; reflexivity|].
  split; [intros e H E; rewrite H, E; reflexivity|].
  split; [intros m H E; rewrite H, E; reflexivity|].
  split; [reflexivity|]; split; [reflexivity|]; split; [reflexivity|]; split; [reflexivity|].
  intros a H; exact (server_args_head (with_platform Server r) a eq_refl H).
Qed.

(** ** Witnesses of the extra properties *)

Lemma drain_summary_witness :
  no_failure [Some BuildScriptExecuted;
              Some (TextLine (RStr.nbsp ++ "Running `rustc --crate-name app src/main.rs`")%string);
              Some (CompilerMessage "warning: unused variable");
              None;
              Some (CompilerArtifact (mkArtifact (Some ["target"; "debug"; "app"]) "app"))]
    = true /\
  exists st, drain 10 [Some BuildScriptExecuted;
              Some (TextLine (RStr.nbsp ++ "Running `rustc --crate-name app src/main.rs`")%string);
              Some (CompilerMessage "warning: unused variable");
              None;
              Some (CompilerArtifact (mkArtifact (Some ["target"; "debug"; "app"]) "app"))]
    init_state = Continue st /\
  units_compiled st = count_units [Some BuildScriptExecuted;
              Some (TextLine (RStr.nbsp ++ "Running `rustc --crate-name app src/main.rs`")%string);
              Some (CompilerMessage "warning: unused variable");
              None;
              Some (CompilerArtifact (mkArtifact (Some ["target"; "debug"; "app"]) "app"))] /\
  output_location st = last_executable [Some BuildScriptExecuted;
              Some (TextLine (RStr.nbsp ++ "Running `rustc --crate-name app src/main.rs`")%string);
              Some (CompilerMessage "warning: unused variable");
              None;
              Some (CompilerArtifact (mkArtifact (Some ["target"; "debug"; "app"]) "app"))] None /\
  direct_rustc st = captured [Some BuildScriptExecuted;
              Some (TextLine (RStr.nbsp ++ "Running `rustc --crate-name app src/main.rs`")%string);
              Some (CompilerMessage "warning: unused variable");
              None;
              Some (CompilerArtifact (mkArtifact (Some ["target"; "debug"; "app"]) "app"))] /\
  diag_statuses (statuses st) = diagnostics [Some BuildScriptExecuted;
              Some (TextLine (RStr.nbsp ++ "Running `rustc --crate-name app src/main.rs`")%string);
              Some (CompilerMessage "warning: unused variable");
              None;
              Some (CompilerArtifact (mkArtifact (Some ["target"; "debug"; "app"]) "app"))].
Proof.
  split; [vm_compute; reflexivity|].
  apply drain_summary; vm_compute; reflexivity.
Defined.

Lemma wasm_output_files_plain_witness :
  executable_name (sample_request Web Base) <> "" /\
  RStr.contains_char "."%char (executable_name (sample_request Web Base)) = false /\
  RStr.contains_char "/"%char (executable_name (sample_request Web Base)) = false /\
  wasm_bindgen_js_output_file (sample_request Web Base) =
    join (wasm_bindgen_out_dir (sample_request Web Base)) "app.js" /\
  wasm_bindgen_wasm_output_file (sample_request Web Base) =
    join (wasm_bindgen_out_dir (sample_request Web Base)) "app_bg.wasm" /\
  (platform (sample_request Web Base) = Web ->
     wasm_bindgen_out_dir (sample_request Web Base) = exe_dir (sample_request Web Base)).
Proof.
  assert (H1 : executable_name (sample_request Web Base) <> "") by discriminate.
  assert (H2 : RStr.contains_char "."%char (executable_name (sample_request Web Base)) = false)
    by reflexivity.
  assert (H3 : RStr.contains_char "/"%char (executable_name (sample_request Web Base)) = false)
    by reflexivity.
  split; [exact H1|]; split; [exact H2|]; split; [exact H3|].
  exact (wasm_output_files_plain (sample_request Web Base) H1 H2 H3).
Defined.

Lemma wasm_output_files_dotted_witness :
  executable_name (with_executable_name "my.app" (sample_request Web Base)) = ("my" ++ "." ++ "app")%string /\
  wasm_bindgen_js_output_file (with_executable_name "my.app" (sample_request Web Base)) =
    join (wasm_bindgen_out_dir (with_executable_name "my.app" (sample_request Web Base))) "my.js" /\
  wasm_bindgen_wasm_output_file (with_executable_name "my.app" (sample_request Web Base)) =
    join (wasm_bindgen_out_dir (with_executable_name "my.app" (sample_request Web Base))) "my.wasm".
Proof.
  split; [reflexivity|].
  apply (wasm_output_files_dotted (with_executable_name "my.app" (sample_request Web Base))
           "my" "app"); try reflexivity; discriminate.
Defined.

Lemma prepare_build_dir_scope_witness :
  In (RemoveDirAll (exe_dir (sample_request Web Base)))
     (fs_log (fst (prepare_all readonly_public
                     [sample_request Web Base; sample_request Server Base] empty_proc))) /\
  under (platform_dir (sample_request Web Base))
        (op_path (RemoveDirAll (exe_dir (sample_request Web Base)))).
Proof.
  assert (H : In (RemoveDirAll (exe_dir (sample_request Web Base)))
     (fs_log (fst (prepare_all readonly_public
                     [sample_request Web Base; sample_request Server Base] empty_proc))))
    by (vm_compute; left; reflexivity).
  split; [exact H|].
  exact (prepare_build_dir_scope readonly_public (sample_request Web Base)
           [sample_request Server Base] _ H).
Defined.

Lemma prepare_build_dir_first_failure_witness :
  snd (prepare_build_dir readonly_public (sample_request Web Base) empty_proc)
    = inr "Failed to initialize build directory: Permission denied" /\
  exists done o rest e,
    ([CreateDirAll (root_dir (sample_request Web Base));
      CreateDirAll (exe_dir (sample_request Web Base));
      CreateDirAll (asset_dir (sample_request Web Base))]
     ++ (if platform_eqb (platform (sample_request Web Base)) Android
         then android_app_dir_ops (sample_request Web Base) else []))%list
      = (done ++ o :: rest)%list /\
    all_ok readonly_public [RemoveDirAll (exe_dir (sample_request Web Base))] done /\
    readonly_public (RemoveDirAll (exe_dir (sample_request Web Base)) :: done) o = Some e /\
    fs_log (fst (prepare_build_dir readonly_public (sample_request Web Base) empty_proc))
      = (RemoveDirAll (exe_dir (sample_request Web Base)) :: done ++ [o])%list /\
    "Failed to initialize build directory: Permission denied"
      = ("Failed to initialize build directory: " ++ e)%string.
Proof.
  assert (H : snd (prepare_build_dir readonly_public (sample_request Web Base) empty_proc)
                = inr "Failed to initialize build directory: Permission denied")
    by (vm_compute; reflexivity).
  split; [exact H|].
  exact (prepare_build_dir_first_failure readonly_public (sample_request Web Base) _ H).
Defined.

Lemma build_arguments_profile_target_witness :
  exists a, build_arguments (sample_request Web Base) = Ok a /\
  (platform (sample_request Web Base) = Server ->
     exists rest, a = "--profile" :: (if release (sample_request Web Base) then "release"
                                      else server_profile (sample_request Web Base))
                      :: "--verbose" :: rest) /\
  (platform (sample_request Web Base) <> Server -> release (sample_request Web Base) = true ->
     exists rest, a = "--profile" :: "release" :: rest) /\
  (forall t, custom_target (sample_request Web Base) = Some t ->
     exists p rest, a = (p ++ "--target" :: t :: "--verbose" :: rest)%list /\
       (p = [] \/ exists x, p = ["--profile"; x])) /\
  (platform (sample_request Web Base) <> Server -> custom_target (sample_request Web Base) = None ->
     forall t, target (sample_request Web Base) = Some t ->
     exists p rest, a = (p ++ "--target" :: t :: "--verbose" :: rest)%list /\
       (p = [] \/ exists x, p = ["--profile"; x])).
Proof.
  assert (H : build_arguments (sample_request Web Base) =
              Ok ["--target"; "wasm32-unknown-unknown"; "--verbose"; "--features";
                  "fullstack router"; "--bin"; "app"; "--"])
    by (vm_compute; reflexivity).
  eexists; split; [exact H|].
  exact (build_arguments_profile_target (sample_request Web Base) _ H).
Defined.
